(** * cm.py: clipboard backup / restore engine

    A shallow embedding of [src/cm.py] (class [Clipboard]) together with a
    small executable model of the Win32 primitives the class calls through
    [win32clipboard], [win32api] and [ctypes], followed by the properties
    of the engine.

    Python objects become records; the mutable [self] and the operating
    system are components of one state that every method threads through;
    a raised exception is an explicit result, and so is a [while] loop that
    runs out of the fuel it was given.  Every operating-system call and
    every [logging] call is recorded, in program order, in a trace, so that
    "no write was attempted" or "the error was logged" are statements
    about that trace.

    The listener runs in a thread of its own.  Here the start of that
    thread is one step with the first statements of [runner], and the
    message loop is driven one message at a time; what two threads could
    do between those statements is outside this development. *)

From Stdlib Require Import ZArith String List Bool Lia.
Import ListNotations.
Open Scope Z_scope.

(** ** Data *)

(** A clipboard format identifier (a Win32 [UINT]). *)
Definition format := Z.

(** The payload [GetClipboardData] hands back for the supported formats. *)
Definition payload := list Byte.byte.

(** Python [len] of a payload. *)
Definition len (d : payload) : Z := Z.of_nat (length d).

(** A Python [dict] keyed by format.  Iteration follows insertion order and
    an assignment to an existing key keeps the key's position, so the dict
    is an association list with [dict_set] as its only writer. *)
Definition dict := list (format * payload).

Fixpoint dict_get (d : dict) (k : format) : option payload :=
  match d with
  | [] => None
  | (k', v) :: rest => if k' =? k then Some v else dict_get rest k
  end.

Fixpoint dict_set (d : dict) (k : format) (v : payload) : dict :=
  match d with
  | [] => [(k, v)]
  | (k', v') :: rest =>
      if k' =? k then (k, v) :: rest else (k', v') :: dict_set rest k v
  end.

Definition keys (d : dict) : list format := map fst d.

Definition dict_is_empty (d : dict) : bool :=
  match d with [] => true | _ => false end.

(** [x in xs] on a Python list of integers. *)
Definition mem (x : Z) (xs : list Z) : bool := existsb (Z.eqb x) xs.

(** Predefined format numbers of [win32clipboard]. *)
Definition CF_TEXT : format := 1.
Definition CF_OEMTEXT : format := 7.
Definition CF_UNICODETEXT : format := 13.
Definition CF_LOCALE : format := 16.
Definition CF_DIBV5 : format := 17.

(** Window messages. *)
Definition WM_CLIPBOARDUPDATE : Z := 0x031D.
Definition WM_QUIT : Z := 0x0012.

(** ** Trace of observable actions *)

Inductive call : Type :=
| GetClipboardSequenceNumber_
| sleep_ (ms : Z)
| OpenClipboard_
| EnumClipboardFormats_ (f : format)
| GetClipboardData_ (f : format)
| EmptyClipboard_
| SetClipboardData_ (f : format) (d : payload)
| CloseClipboard_
| Thread_start_ (tid : Z)
| AddClipboardFormatListener_ (hwnd : Z)
| RemoveClipboardFormatListener_ (hwnd : Z)
| PostThreadMessage_ (tid msg : Z).

Inductive level : Type := DEBUG | INFO | ERROR.

(** One constructor per [logging] call site of the class; the arguments are
    the numeric arguments of the format string.  The format name that some
    messages also print comes from [Clipboard._format_name], which catches
    every exception itself and only feeds the message text. *)
Inductive logmsg : Type :=
| Start_sequence (clip_seq last_seq : Z)
| Ignore_processed (clip_seq : Z)
| Open_success
| Open_error
| First_format (f : format)
| Closed
| Backup_starts
| Backup_plus (f : format) (size : Z)
| Backup_read_error (f : format)
| Backup_minus (f : format)
| Backed_up (count : Z)
| Nothing_to_restore (last_seq : Z)
| Restore_starts
| Restore_star (f : format) (size : Z)
| Restore_write_error (f : format) (size : Z)
| Restored (count : Z)
| Listener_already_running
| Listener_started
| Listener_stopped.

Inductive event : Type :=
| Call (c : call)
| Log (l : level) (m : logmsg).

(** ** State *)

(** The fields of a [Clipboard] instance. *)
Record Clipboard : Type := mkClipboard {
  _trigger_at_start : bool;
  _clip_data : dict;
  _last_clip_seq : Z;
  _thread_id : Z;
  _hwnd : Z
}.

(** The part of the operating system the class talks to.  [os_clip] lists
    the formats on the clipboard in enumeration order.  [os_busy] is the
    number of coming [OpenClipboard] calls that find the clipboard held by
    another process; [os_enum_bad], [os_read_bad] and [os_write_bad] are the
    arguments at which [EnumClipboardFormats], [GetClipboardData] and
    [SetClipboardData] fail although the clipboard is open.  [os_threads]
    holds the message queue of every thread started by [listen] that has
    not finished. *)
Record OS : Type := mkOS {
  os_clip : dict;
  os_seq : Z;
  os_open : bool;
  os_busy : nat;
  os_enum_bad : list format;
  os_read_bad : list format;
  os_write_bad : list format;
  os_threads : list (Z * list Z);
  os_listeners : list Z;
  os_next_tid : positive
}.

Record Sys : Type := mkSys {
  self : Clipboard;
  os : OS;
  trace : list event
}.

Definition with_self (c : Clipboard) (s : Sys) : Sys := mkSys c (os s) (trace s).
Definition with_os (o : OS) (s : Sys) : Sys := mkSys (self s) o (trace s).
Definition emit (e : event) (s : Sys) : Sys := mkSys (self s) (os s) (trace s ++ [e]).

Definition set_clip_data (d : dict) (c : Clipboard) : Clipboard :=
  mkClipboard (_trigger_at_start c) d (_last_clip_seq c) (_thread_id c) (_hwnd c).
Definition set_last_clip_seq (n : Z) (c : Clipboard) : Clipboard :=
  mkClipboard (_trigger_at_start c) (_clip_data c) n (_thread_id c) (_hwnd c).
Definition set_thread_id (t : Z) (c : Clipboard) : Clipboard :=
  mkClipboard (_trigger_at_start c) (_clip_data c) (_last_clip_seq c) t (_hwnd c).

Definition set_os_clip (d : dict) (n : Z) (o : OS) : OS :=
  mkOS d n (os_open o) (os_busy o) (os_enum_bad o) (os_read_bad o)
       (os_write_bad o) (os_threads o) (os_listeners o) (os_next_tid o).
Definition set_os_open (b : bool) (k : nat) (o : OS) : OS :=
  mkOS (os_clip o) (os_seq o) b k (os_enum_bad o) (os_read_bad o)
       (os_write_bad o) (os_threads o) (os_listeners o) (os_next_tid o).
Definition set_os_threads (ts : list (Z * list Z)) (p : positive) (o : OS) : OS :=
  mkOS (os_clip o) (os_seq o) (os_open o) (os_busy o) (os_enum_bad o)
       (os_read_bad o) (os_write_bad o) ts (os_listeners o) p.
Definition set_os_listeners (ls : list Z) (o : OS) : OS :=
  mkOS (os_clip o) (os_seq o) (os_open o) (os_busy o) (os_enum_bad o)
       (os_read_bad o) (os_write_bad o) (os_threads o) ls (os_next_tid o).

(** ** Computations: state, exceptions, fuel *)

(** A raised Python exception, named by the call that raised it. *)
Inductive exn : Type := Error (c : call).

(** [Diverge] stands for a [while] loop that used up the fuel it was
    given; it is not an exception and no handler sees it. *)
Inductive res (A : Type) : Type :=
| Ret (a : A)
| Raise (e : exn)
| Diverge.
Arguments Ret {A} a.
Arguments Raise {A} e.
Arguments Diverge {A}.

Definition M (A : Type) : Type := Sys -> res A * Sys.

Definition ret {A} (a : A) : M A := fun s => (Ret a, s).
Definition raise {A} (e : exn) : M A := fun s => (Raise e, s).

Definition bind {A B} (m : M A) (k : A -> M B) : M B :=
  fun s =>
    match m s with
    | (Ret a, s') => k a s'
    | (Raise e, s') => (Raise e, s')
    | (Diverge, s') => (Diverge, s')
    end.

Notation "x <- m ;; k" := (bind m (fun x => k))
  (at level 61, m at next level, right associativity).
Notation "m ;; k" := (bind m (fun _ => k))
  (at level 61, right associativity).

(** [try: body / except: handler] with a bare [except]. *)
Definition try_except {A} (body handler : M A) : M A :=
  fun s =>
    match body s with
    | (Raise _, s') => handler s'
    | r => r
    end.

(** [try: body / finally: final]: the final block runs after a normal end
    and after an exception; an exception of the final block replaces the
    pending one, otherwise the pending one is raised again. *)
Definition try_finally {A} (body : M A) (final : M unit) : M A :=
  fun s =>
    match body s with
    | (Diverge, s') => (Diverge, s')
    | (r, s') =>
        match final s' with
        | (Ret _, s'') => (r, s'')
        | (Raise e, s'') => (Raise e, s'')
        | (Diverge, s'') => (Diverge, s'')
        end
    end.

Definition get_self : M Clipboard := fun s => (Ret (self s), s).
Definition modify_self (f : Clipboard -> Clipboard) : M unit :=
  fun s => (Ret tt, with_self (f (self s)) s).

Definition logging (l : level) (m : logmsg) : M unit :=
  fun s => (Ret tt, emit (Log l m) s).
Definition logging_debug := logging DEBUG.
Definition logging_info := logging INFO.
Definition logging_error := logging ERROR.

Definition get_os : M OS := fun s => (Ret (os s), s).
Definition put_os (o : OS) : M unit := fun s => (Ret tt, with_os o s).
Definition os_call (c : call) : M unit := fun s => (Ret tt, emit (Call c) s).

(** ** The operating system calls

    As [win32clipboard] exposes them: an API failure is a Python exception.
    Enumerating, reading, emptying, writing and closing need the clipboard
    to be open in the calling process and fail otherwise; reading a format
    that is not on the clipboard fails; emptying and every successful
    write move the sequence number on.  Beyond that a call fails where the
    state of the system says so ([os_busy], [os_enum_bad], [os_read_bad],
    [os_write_bad]). *)

(** Format after [f] in enumeration order, [0] once there is none;
    [f = 0] asks for the first one. *)
Fixpoint enum_after (clip : dict) (f : format) : format :=
  match clip with
  | [] => 0
  | (g, _) :: rest =>
      if g =? f then match rest with [] => 0 | (h, _) :: _ => h end
      else enum_after rest f
  end.

Definition enum_next (clip : dict) (f : format) : format :=
  if f =? 0 then match clip with [] => 0 | (h, _) :: _ => h end
  else enum_after clip f.

Definition GetClipboardSequenceNumber : M Z :=
  os_call GetClipboardSequenceNumber_ ;;
  o <- get_os ;;
  ret (os_seq o).

Definition time_sleep (ms : Z) : M unit := os_call (sleep_ ms).

Definition OpenClipboard : M unit :=
  os_call OpenClipboard_ ;;
  o <- get_os ;;
  match os_busy o with
  | S k => put_os (set_os_open (os_open o) k o) ;; raise (Error OpenClipboard_)
  | O => put_os (set_os_open true O o)
  end.

Definition EnumClipboardFormats (f : format) : M format :=
  os_call (EnumClipboardFormats_ f) ;;
  o <- get_os ;;
  if negb (os_open o) || mem f (os_enum_bad o)
  then raise (Error (EnumClipboardFormats_ f))
  else ret (enum_next (os_clip o) f).

Definition GetClipboardData (f : format) : M payload :=
  os_call (GetClipboardData_ f) ;;
  o <- get_os ;;
  if negb (os_open o) || mem f (os_read_bad o)
  then raise (Error (GetClipboardData_ f))
  else match dict_get (os_clip o) f with
       | Some d => ret d
       | None => raise (Error (GetClipboardData_ f))
       end.

Definition EmptyClipboard : M unit :=
  os_call EmptyClipboard_ ;;
  o <- get_os ;;
  if os_open o then put_os (set_os_clip [] (os_seq o + 1) o)
  else raise (Error EmptyClipboard_).

Definition SetClipboardData (f : format) (d : payload) : M unit :=
  os_call (SetClipboardData_ f d) ;;
  o <- get_os ;;
  if negb (os_open o) || mem f (os_write_bad o)
  then raise (Error (SetClipboardData_ f d))
  else put_os (set_os_clip (dict_set (os_clip o) f d) (os_seq o + 1) o).

Definition CloseClipboard : M unit :=
  os_call CloseClipboard_ ;;
  o <- get_os ;;
  if os_open o then put_os (set_os_open false (os_busy o) o)
  else raise (Error CloseClipboard_).

(** Thread message queues. *)
Fixpoint thread_queue (ts : list (Z * list Z)) (tid : Z) : option (list Z) :=
  match ts with
  | [] => None
  | (t, q) :: rest => if t =? tid then Some q else thread_queue rest tid
  end.

Fixpoint put_queue (ts : list (Z * list Z)) (tid : Z) (q : list Z)
  : list (Z * list Z) :=
  match ts with
  | [] => []
  | (t, q') :: rest =>
      if t =? tid then (t, q) :: rest else (t, q') :: put_queue rest tid q
  end.

Definition remove_thread (ts : list (Z * list Z)) (tid : Z) : list (Z * list Z) :=
  filter (fun tq => negb (fst tq =? tid)) ts.

(** [threading.Thread(...).start()]: a new thread with an empty message
    queue and an identifier that is positive and was never used. *)
Definition Thread_start : M Z :=
  o <- get_os ;;
  let tid := Z.pos (os_next_tid o) in
  os_call (Thread_start_ tid) ;;
  put_os (set_os_threads (os_threads o ++ [(tid, [])]) (Pos.succ (os_next_tid o)) o) ;;
  ret tid.

Definition AddClipboardFormatListener (hwnd : Z) : M unit :=
  os_call (AddClipboardFormatListener_ hwnd) ;;
  o <- get_os ;;
  put_os (set_os_listeners (hwnd :: os_listeners o) o).

Fixpoint remove_first (x : Z) (xs : list Z) : list Z :=
  match xs with
  | [] => []
  | y :: rest => if y =? x then rest else y :: remove_first x rest
  end.

Definition RemoveClipboardFormatListener (hwnd : Z) : M unit :=
  os_call (RemoveClipboardFormatListener_ hwnd) ;;
  o <- get_os ;;
  put_os (set_os_listeners (remove_first hwnd (os_listeners o)) o).

(** Posting to a thread that does not exist fails. *)
Definition PostThreadMessage (tid msg : Z) : M unit :=
  os_call (PostThreadMessage_ tid msg) ;;
  o <- get_os ;;
  match thread_queue (os_threads o) tid with
  | Some q =>
      put_os (set_os_threads (put_queue (os_threads o) tid (q ++ [msg]))
                             (os_next_tid o) o)
  | None => raise (Error (PostThreadMessage_ tid msg))
  end.

(** ** Vocabulary of the statements *)

Fixpoint nodupb (xs : list Z) : bool :=
  match xs with
  | [] => true
  | x :: rest => negb (mem x rest) && nodupb rest
  end.

(** The formats on a real clipboard are pairwise different and none of them
    is [0], the number [EnumClipboardFormats] keeps for "no more formats". *)
Definition wf_clip (clip : dict) : bool :=
  negb (mem 0 (keys clip)) && nodupb (keys clip).

(** No enumeration call over the clipboard fails. *)
Definition enum_ok (o : OS) : bool :=
  forallb (fun f => negb (mem f (os_enum_bad o))) (0 :: keys (os_clip o)).

(** The clipboard is emptied from outside the class: no format is left
    and the system's sequence number moves on. *)
Definition external_empty (s : Sys) : Sys :=
  with_os (set_os_clip [] (os_seq (os s) + 1) (os s)) s.

(** The [SetClipboardData] calls of a trace, in order. *)
Fixpoint writes_of (t : list event) : dict :=
  match t with
  | [] => []
  | Call (SetClipboardData_ f d) :: rest => (f, d) :: writes_of rest
  | _ :: rest => writes_of rest
  end.

(** [s'] differs from [s] by further trace entries only. *)
Definition same (s s' : Sys) : Prop :=
  self s' = self s /\ os s' = os s /\ exists t, trace s' = trace s ++ t.

(** The state in which [_process_clip] reaches its retry loop. *)
Definition before_open (s : Sys) : Sys :=
  emit (Call (sleep_ 100))
       (emit (Log DEBUG (Start_sequence (os_seq (os s)) (_last_clip_seq (self s))))
             (emit (Call GetClipboardSequenceNumber_) s)).

(** The state after [listen] has started its thread and the thread has
    reached [PumpMessages]. *)
Definition listening (s : Sys) : Sys :=
  let tid := Z.pos (os_next_tid (os s)) in
  mkSys (set_thread_id tid (self s))
        (set_os_listeners
           (_hwnd (self s) :: os_listeners (os s))
           (set_os_threads (os_threads (os s) ++ [(tid, [])])
                           (Pos.succ (os_next_tid (os s))) (os s)))
        (trace s ++ [Call (Thread_start_ tid); Log INFO Listener_started;
                     Call (AddClipboardFormatListener_ (_hwnd (self s)))]).

(** At most one listening thread, and [_thread_id] names it. *)
Definition one_listener (s : Sys) : Prop :=
  (_thread_id (self s) = 0 /\ os_threads (os s) = []) \/
  (0 < _thread_id (self s) /\
   exists q, os_threads (os s) = [(_thread_id (self s), q)]).

(** What an evaluation of the clipboard never touches: the listener fields
    of [self], the failure behaviour of the system and its threads. *)
Definition frame (s s' : Sys) : Prop :=
  _trigger_at_start (self s') = _trigger_at_start (self s) /\
  _thread_id (self s') = _thread_id (self s) /\
  _hwnd (self s') = _hwnd (self s) /\
  os_enum_bad (os s') = os_enum_bad (os s) /\
  os_read_bad (os s') = os_read_bad (os s) /\
  os_write_bad (os s') = os_write_bad (os s) /\
  os_threads (os s') = os_threads (os s) /\
  os_listeners (os s') = os_listeners (os s) /\
  os_next_tid (os s') = os_next_tid (os s) /\
  exists t, trace s' = trace s ++ t.

(** ** The class [Clipboard] *)

Section Clipboard.

(** [win32clipboard.RegisterClipboardFormat]: the number the running
    system gives to a named format. *)
Variable RegisterClipboardFormat : string -> format.

Definition SUPPORTED_CF : list format :=
  [ RegisterClipboardFormat "Rich Text Format";
    CF_TEXT;
    CF_OEMTEXT;
    CF_LOCALE;
    CF_DIBV5;
    CF_UNICODETEXT;
    RegisterClipboardFormat "HTML Format";
    RegisterClipboardFormat "image/svg+xml";
    RegisterClipboardFormat "PNG" ].

(** [Clipboard.__init__], for the window handle [_create_window] returned. *)
Definition __init__ (trigger_at_start : bool) (hwnd : Z) : Clipboard :=
  mkClipboard trigger_at_start [] 0 0 hwnd.

(** The body of the [while] loop of [_backup_clipboard] before it asks for
    the next format: the [if format in SUPPORTED_CF] statement.  [data] is
    the local dict, the result is its value afterwards. *)
Definition backup_format (format : format) (data : dict) : M dict :=
  if mem format SUPPORTED_CF then
    try_except
      (d <- GetClipboardData format ;;
       let data' := dict_set data format d in
       logging_debug (Backup_plus format (len d)) ;;
       ret data')
      (logging_error (Backup_read_error format) ;;
       ret data)
  else
    logging_debug (Backup_minus format) ;;
    ret data.

(** The [while format != 0] loop of [_backup_clipboard]. *)
Fixpoint backup_loop (fuel : nat) (format : format) (data : dict) : M dict :=
  match fuel with
  | O => fun s => (Diverge, s)
  | S fuel' =>
      if negb (format =? 0) then
        data' <- backup_format format data ;;
        format' <- EnumClipboardFormats format ;;
        backup_loop fuel' format' data'
      else ret data
  end.

Definition _backup_clipboard (fuel : nat) : M unit :=
  logging_debug Backup_starts ;;
  format <- EnumClipboardFormats 0 ;;
  data <- backup_loop fuel format [] ;;
  modify_self (set_clip_data data) ;;
  logging_info (Backed_up (Z.of_nat (length data))).

(** [self._clip_data[format]]. *)
Definition clip_data_at (f : format) : M payload :=
  c <- get_self ;;
  match dict_get (_clip_data c) f with
  | Some d => ret d
  | None => fun s => (Raise (Error (SetClipboardData_ f [])), s)
  end.

(** The body of the [for] loop of [_restore_clipboard]: [false] is the
    [return] of the handler. *)
Definition restore_format (format : format) : M bool :=
  try_except
    (d <- clip_data_at format ;;
     SetClipboardData format d ;;
     logging_debug (Restore_star format (len d)) ;;
     ret true)
    (d <- clip_data_at format ;;
     logging_error (Restore_write_error format (len d)) ;;
     ret false).

(** The [for format in self._clip_data] loop of [_restore_clipboard];
    [true] is the normal end of the loop. *)
Fixpoint restore_loop (formats : list format) : M bool :=
  match formats with
  | [] => ret true
  | format :: rest =>
      written <- restore_format format ;;
      if written : bool then restore_loop rest else ret false
  end.

Definition _restore_clipboard : M unit :=
  c <- get_self ;;
  if dict_is_empty (_clip_data c) then
    logging_debug (Nothing_to_restore (_last_clip_seq c)) ;;
    ret tt
  else
    logging_debug Restore_starts ;;
    EmptyClipboard ;;
    completed <- restore_loop (keys (_clip_data c)) ;;
    if completed : bool then
      logging_info (Restored (Z.of_nat (length (_clip_data c))))
    else ret tt.

(** The body of the [for i in range(1, 5)] loop of [_process_clip]:
    [true] is the [break]. *)
Definition open_attempt (i : Z) : M bool :=
  try_except
    (time_sleep (100 * i) ;;
     OpenClipboard ;;
     logging_debug Open_success ;;
     ret true)
    (logging_error Open_error ;;
     ret false).

Fixpoint open_attempts (range : list Z) : M unit :=
  match range with
  | [] => ret tt
  | i :: rest =>
      opened <- open_attempt i ;;
      if opened : bool then ret tt else open_attempts rest
  end.

(** The [try] block and the [finally] block of [_process_clip]. *)
Definition process_clip_try (fuel : nat) : M unit :=
  format <- EnumClipboardFormats 0 ;;
  logging_debug (First_format format) ;;
  if negb (format =? 0) then _backup_clipboard fuel
  else _restore_clipboard.

Definition process_clip_finally : M unit :=
  CloseClipboard ;;
  logging_debug Closed ;;
  seq <- GetClipboardSequenceNumber ;;
  modify_self (set_last_clip_seq seq).

Definition _process_clip (fuel : nat) : M unit :=
  clip_seq <- GetClipboardSequenceNumber ;;
  c <- get_self ;;
  logging_debug (Start_sequence clip_seq (_last_clip_seq c)) ;;
  if _last_clip_seq c >=? clip_seq then
    logging_debug (Ignore_processed clip_seq) ;;
    ret tt
  else
    time_sleep 100 ;;
    open_attempts [1; 2; 3; 4] ;;
    try_finally (process_clip_try fuel) process_clip_finally.

Definition _process_message (fuel : nat) (hwnd msg wparam lparam : Z) : M Z :=
  (if msg =? WM_CLIPBOARDUPDATE then _process_clip fuel else ret tt) ;;
  ret 0.

(** The body of [runner] before and after its [PumpMessages] call, in the
    thread [tid] that [listen] started. *)
Definition runner_enter (tid : Z) : M unit :=
  logging_info Listener_started ;;
  modify_self (set_thread_id tid) ;;
  c <- get_self ;;
  AddClipboardFormatListener (_hwnd c).

Definition runner_leave : M unit :=
  c <- get_self ;;
  RemoveClipboardFormatListener (_hwnd c) ;;
  logging_info Listener_stopped ;;
  modify_self (set_thread_id 0).

(** [listen], up to the point where it waits for the thread it started:
    the thread start is taken together with the thread's first steps. *)
Definition listen (fuel : nat) : M unit :=
  c <- get_self ;;
  if _thread_id c >? 0 then
    logging_info Listener_already_running ;;
    ret tt
  else
    (if _trigger_at_start c then _process_clip fuel else ret tt) ;;
    tid <- Thread_start ;;
    runner_enter tid.

Definition stop : M unit :=
  c <- get_self ;;
  if _thread_id c >? 0 then PostThreadMessage (_thread_id c) WM_QUIT
  else ret tt.

(** [win32gui.PumpMessages] in thread [tid] taking the next message of the
    thread's queue: [WM_QUIT] ends the loop, so the rest of [runner] runs
    and the thread finishes; any other thread message is dropped. *)
Definition pump (tid : Z) : M unit :=
  o <- get_os ;;
  match thread_queue (os_threads o) tid with
  | Some (m :: q) =>
      if m =? WM_QUIT then
        put_os (set_os_threads (remove_thread (os_threads o) tid)
                               (os_next_tid o) o) ;;
        runner_leave
      else
        put_os (set_os_threads (put_queue (os_threads o) tid q)
                               (os_next_tid o) o)
  | _ => ret tt
  end.

(** What can happen to a [Clipboard] instance: its two public methods are
    called, a message reaches its window procedure, or the message loop of
    a listening thread takes a message. *)
Inductive action : Type :=
| Do_listen
| Do_stop
| Do_message (msg : Z)
| Do_pump (tid : Z).

Definition perform (fuel : nat) (a : action) : M unit :=
  match a with
  | Do_listen => listen fuel
  | Do_stop => stop
  | Do_message msg =>
      c <- get_self ;;
      _process_message fuel (_hwnd c) msg 0 0 ;;
      ret tt
  | Do_pump tid => pump tid
  end.

(** What one step of the backup loop does to the local dict when the
    clipboard is open: a supported, readable format is stored. *)
Definition capture (o : OS) (data : dict) (entry : format * payload) : dict :=
  if mem (fst entry) SUPPORTED_CF && negb (mem (fst entry) (os_read_bad o))
  then dict_set data (fst entry) (snd entry)
  else data.


End Clipboard.

(** What the restore loop does to an open clipboard, entry by entry, up to
    the first write that fails: whether it reached the end, and the
    operating system afterwards. *)
Fixpoint write_all (entries : dict) (o : OS) : bool * OS :=
  match entries with
  | [] => (true, o)
  | (f, d) :: rest =>
      if mem f (os_write_bad o) then (false, o)
      else write_all rest (set_os_clip (dict_set (os_clip o) f d) (os_seq o + 1) o)
  end.

(** The trace the restore loop leaves on an open clipboard. *)
Fixpoint restore_trace (bad : list format) (entries : dict) : list event :=
  match entries with
  | [] => []
  | (f, d) :: rest =>
      Call (SetClipboardData_ f d) ::
      (if mem f bad then [Log ERROR (Restore_write_error f (len d))]
       else Log DEBUG (Restore_star f (len d)) :: restore_trace bad rest)
  end.

(** The listener is running exactly while [_thread_id] holds the
    identifier of its thread. *)
Inductive ListenerState : Type := Stopped | Running.

Definition listener_state (s : Sys) : ListenerState :=
  if _thread_id (self s) >? 0 then Running else Stopped.

(** Number of [WM_QUIT] messages waiting in the thread queues. *)
Definition pending_quits (o : OS) : nat :=
  length (filter (Z.eqb WM_QUIT) (concat (map snd (os_threads o)))).

(** The states a [Clipboard] can be in: constructed on a system without
    listening threads, then any sequence of actions, whatever each one's
    outcome, and of changes other processes make to the system outside
    the threads of the class. *)
Inductive reachable (reg : string -> format) (fuel : nat) : Sys -> Prop :=
| reachable_init (trigger_at_start : bool) (hwnd : Z) (o : OS) :
    os_threads o = [] ->
    reachable reg fuel (mkSys (__init__ trigger_at_start hwnd) o [])
| reachable_step (a : action) (s : Sys) (r : res unit) (s' : Sys) :
    reachable reg fuel s ->
    perform reg fuel a s = (r, s') ->
    reachable reg fuel s'
| reachable_environment (s : Sys) (o : OS) :
    reachable reg fuel s ->
    os_threads o = os_threads (os s) ->
    reachable reg fuel (with_os o s).

(** ** Sample inputs *)

(** Format numbers as a running system could register them (registered
    formats lie in [0xC000 .. 0xFFFF]). *)
Definition sample_register (name : string) : format :=
  if String.eqb name "Rich Text Format" then 0xC0A5
  else if String.eqb name "HTML Format" then 0xC0E8
  else if String.eqb name "image/svg+xml" then 0xC15C
  else if String.eqb name "PNG" then 0xC1C0
  else 0xC200.

(** The bytes of "hello". *)
Definition hello : payload :=
  [Byte.x68; Byte.x65; Byte.x6c; Byte.x6c; Byte.x6f].

(** A system without threads; [opened] says whether the class holds the
    clipboard, [busy] how many coming [OpenClipboard] calls are refused. *)
Definition sample_os (clip : dict) (seq : Z) (opened : bool) (busy : nat)
           (enum_bad read_bad write_bad : list format) : OS :=
  mkOS clip seq opened busy enum_bad read_bad write_bad [] [] 1%positive.

(** A stopped [Clipboard] with the given snapshot and cursor. *)
Definition sample_sys (trigger_at_start : bool) (snapshot : dict) (cursor : Z)
           (o : OS) : Sys :=
  mkSys (set_last_clip_seq cursor
           (set_clip_data snapshot (__init__ trigger_at_start 77)))
        o [].

(** Text copied as unicode text and as plain text; [0x0002] is
    [CF_BITMAP], which is not supported. *)
Definition text_clip : dict :=
  [(CF_UNICODETEXT, hello); (2, hello); (CF_TEXT, hello)].

(** ** Vocabulary of the further properties *)

(** The entries of the clipboard that a backup pass stores: those whose
    format is supported and can be read. *)
Definition captured (reg : string -> format) (o : OS) : dict :=
  filter (fun e => mem (fst e) (SUPPORTED_CF reg)
                   && negb (mem (fst e) (os_read_bad o)))
         (os_clip o).

(** One refused round of the retry loop of [_process_clip], and the
    round that gets the clipboard. *)
Definition refused_round (i : Z) : list event :=
  [Call (sleep_ (100 * i)); Call OpenClipboard_; Log ERROR Open_error].

Definition granted_round (i : Z) : list event :=
  [Call (sleep_ (100 * i)); Call OpenClipboard_; Log DEBUG Open_success].

(** What the retry loop leaves in the trace when the next [busy] calls of
    [OpenClipboard] are refused. *)
Definition attempts_trace (busy : nat) : list event :=
  match busy with
  | 0%nat => granted_round 1
  | 1%nat => refused_round 1 ++ granted_round 2
  | 2%nat => refused_round 1 ++ refused_round 2 ++ granted_round 3
  | 3%nat => refused_round 1 ++ refused_round 2 ++ refused_round 3
             ++ granted_round 4
  | _ => refused_round 1 ++ refused_round 2 ++ refused_round 3
         ++ refused_round 4
  end.

(** The [OpenClipboard] calls of a trace. *)
Definition opens_of (t : list event) : nat :=
  length (filter (fun e => match e with Call OpenClipboard_ => true | _ => false end) t).

(** The state after a list of actions, whatever each one's outcome. *)
Definition perform_all (reg : string -> format) (fuel : nat)
           (actions : list action) (s : Sys) : Sys :=
  fold_left (fun s a => snd (perform reg fuel a s)) actions s.

(** The clipboard calls of a trace: everything but sleeping, the thread
    and listener calls and the log. *)
Definition clipboard_calls (t : list event) : list event :=
  filter (fun e => match e with
                   | Call GetClipboardSequenceNumber_
                   | Call OpenClipboard_
                   | Call (EnumClipboardFormats_ _)
                   | Call (GetClipboardData_ _)
                   | Call EmptyClipboard_
                   | Call (SetClipboardData_ _ _)
                   | Call CloseClipboard_ => true
                   | _ => false
                   end) t.

(** ** [Clipboard._format_name]

    The static method that names a format for the log.  Its cache is the
    attribute [formats] of the function object, shared by all instances;
    it is absent until the first call.  The method catches every
    exception of [GetClipboardFormatName] itself. *)

(** A Python dict from format to name. *)
Definition names := list (format * string).

Fixpoint names_get (d : names) (k : format) : option string :=
  match d with
  | [] => None
  | (k', v) :: rest => if k' =? k then Some v else names_get rest k
  end.

Fixpoint names_set (d : names) (k : format) (v : string) : names :=
  match d with
  | [] => [(k, v)]
  | (k', v') :: rest =>
      if k' =? k then (k, v) :: rest else (k', v') :: names_set rest k v
  end.

(** [formats] is the attribute ([None] while it is absent), [registered]
    the names the system has for registered formats, [name_calls] the
    [GetClipboardFormatName] calls made so far. *)
Record NameState : Type := mkNameState {
  formats : option names;
  registered : names;
  name_calls : list format
}.

(** [{val: name for name, val in vars(win32clipboard).items()
      if name.startswith('CF_')}], for the integer constants
    [module_vars] of the module. *)
Definition cf_constants (module_vars : list (string * Z)) : names :=
  fold_left (fun d nv =>
               if String.prefix "CF_" (fst nv)
               then names_set d (snd nv) (fst nv)
               else d)
            module_vars [].

(** The dict the method works on: the attribute, created on first use. *)
Definition cache (module_vars : list (string * Z)) (st : NameState) : names :=
  match formats st with
  | Some d => d
  | None => cf_constants module_vars
  end.

Definition _format_name (module_vars : list (string * Z)) (fmt : format)
           (st : NameState) : string * NameState :=
  let d := cache module_vars st in
  match names_get d fmt with
  | Some name => (name, mkNameState (Some d) (registered st) (name_calls st))
  | None =>
      match names_get (registered st) fmt with
      | Some name =>
          (name,
           mkNameState (Some (names_set d fmt name)) (registered st)
                       (name_calls st ++ [fmt]))
      | None =>
          ("unknown"%string,
           mkNameState (Some d) (registered st) (name_calls st ++ [fmt]))
      end
  end.

(** The state after naming a list of formats one after the other. *)
Definition name_all (module_vars : list (string * Z)) (fmts : list format)
           (st : NameState) : NameState :=
  fold_left (fun st f => snd (_format_name module_vars f st)) fmts st.

(** Some of the constants of [win32clipboard]. *)
Definition sample_module_vars : list (string * Z) :=
  [("CF_TEXT"%string, 1); ("CF_BITMAP"%string, 2); ("CF_OEMTEXT"%string, 7);
   ("CF_UNICODETEXT"%string, 13); ("CF_LOCALE"%string, 16);
   ("CF_DIBV5"%string, 17); ("UNICODE"%string, 1)].

(** ** Lists and dicts *)

Lemma mem_In (x : Z) (xs : list Z) : mem x xs = true <-> In x xs.
Proof.
  unfold mem. rewrite existsb_exists. split.
  - intros [y [Hy Heq]]. apply Z.eqb_eq in Heq. now subst.
  - intros H. exists x. split; [assumption | apply Z.eqb_refl].
Qed.

Lemma mem_not_In (x : Z) (xs : list Z) : mem x xs = false <-> ~ In x xs.
Proof.
  rewrite <- mem_In. destruct (mem x xs); split; intros; congruence.
Qed.

Lemma nodupb_NoDup (xs : list Z) : nodupb xs = true <-> NoDup xs.
Proof.
  induction xs as [|x xs IH]; simpl.
  - split; [constructor | reflexivity].
  - rewrite andb_true_iff, negb_true_iff, mem_not_In, IH. split.
    + intros [H1 H2]. now constructor.
    + intros H. inversion H; subst. now split.
Qed.

Lemma keys_app (d1 d2 : dict) : keys (d1 ++ d2) = keys d1 ++ keys d2.
Proof. apply map_app. Qed.

Lemma dict_get_app_notin (pre post : dict) (f : format) (d : payload) :
  ~ In f (keys pre) -> dict_get (pre ++ (f, d) :: post) f = Some d.
Proof.
  induction pre as [|[g e] pre IH]; simpl; intros H.
  - now rewrite Z.eqb_refl.
  - destruct (Z.eqb_spec g f) as [->|Hne]; [tauto|]. apply IH. tauto.
Qed.

Lemma enum_after_app_notin (pre post : dict) (f : format) (d : payload) :
  ~ In f (keys pre) ->
  enum_after (pre ++ (f, d) :: post) f = enum_next post 0.
Proof.
  induction pre as [|[g e] pre IH]; simpl; intros H.
  - now rewrite Z.eqb_refl.
  - destruct (Z.eqb_spec g f) as [->|Hne]; [tauto|]. apply IH. tauto.
Qed.

Lemma dict_set_notin (d : dict) (k : format) (v : payload) :
  ~ In k (keys d) -> dict_set d k v = d ++ [(k, v)].
Proof.
  induction d as [|[g e] d IH]; simpl; intros H; [reflexivity|].
  destruct (Z.eqb_spec g k) as [->|Hne]; [tauto|].
  rewrite IH; tauto.
Qed.

Lemma keys_dict_set (d : dict) (k : format) (v : payload) :
  keys (dict_set d k v) = if mem k (keys d) then keys d else keys d ++ [k].
Proof.
  induction d as [|[g e] d IH]; simpl; [reflexivity|].
  rewrite (Z.eqb_sym k g).
  destruct (Z.eqb_spec g k) as [->|Hne]; simpl; [reflexivity|].
  rewrite IH. now destruct (mem k (keys d)).
Qed.

Lemma In_keys_dict_set (d : dict) (k g : format) (v : payload) :
  In g (keys (dict_set d k v)) -> g = k \/ In g (keys d).
Proof.
  rewrite keys_dict_set. destruct (mem k (keys d)); [tauto|].
  rewrite in_app_iff. simpl. intuition.
Qed.

Lemma wf_clip_split (pre post : dict) (f : format) (d : payload) :
  wf_clip (pre ++ (f, d) :: post) = true ->
  f <> 0 /\ ~ In f (keys pre) /\ ~ In f (keys post).
Proof.
  unfold wf_clip. rewrite andb_true_iff, negb_true_iff, mem_not_In, nodupb_NoDup.
  rewrite keys_app. simpl. intros [H0 Hnd].
  apply NoDup_remove_2 in Hnd. rewrite in_app_iff in *. simpl in H0.
  repeat split; intuition.
Qed.

Lemma same_refl (s : Sys) : same s s.
Proof. repeat split. exists []. now rewrite app_nil_r. Qed.

Lemma same_trans (s1 s2 s3 : Sys) : same s1 s2 -> same s2 s3 -> same s1 s3.
Proof.
  intros (Ha & Hb & t & Ht) (Ha' & Hb' & t' & Ht').
  repeat split; try congruence.
  exists (t ++ t'). now rewrite Ht', Ht, app_assoc.
Qed.

Lemma same_emit (e : event) (s : Sys) : same s (emit e s).
Proof. repeat split. now exists [e]. Qed.

Lemma frame_refl (s : Sys) : frame s s.
Proof. repeat split. exists []. now rewrite app_nil_r. Qed.

Lemma frame_trans (s1 s2 s3 : Sys) : frame s1 s2 -> frame s2 s3 -> frame s1 s3.
Proof.
  unfold frame.
  intros (A1 & A2 & A3 & A4 & A5 & A6 & A7 & A8 & A9 & t & Ht)
         (B1 & B2 & B3 & B4 & B5 & B6 & B7 & B8 & B9 & t' & Ht').
  repeat split; try congruence.
  exists (t ++ t'). now rewrite Ht', Ht, app_assoc.
Qed.

Lemma same_frame (s s' : Sys) : same s s' -> frame s s'.
Proof.
  intros (Ha & Hb & Ht). unfold frame. rewrite Ha, Hb. repeat split. exact Ht.
Qed.

(** ** The operating system calls, as equations *)

Lemma GetClipboardSequenceNumber_eq (s : Sys) :
  GetClipboardSequenceNumber s
  = (Ret (os_seq (os s)), emit (Call GetClipboardSequenceNumber_) s).
Proof. reflexivity. Qed.

Lemma EnumClipboardFormats_eq (f : format) (s : Sys) :
  EnumClipboardFormats f s
  = (if negb (os_open (os s)) || mem f (os_enum_bad (os s))
     then Raise (Error (EnumClipboardFormats_ f))
     else Ret (enum_next (os_clip (os s)) f),
     emit (Call (EnumClipboardFormats_ f)) s).
Proof.
  unfold EnumClipboardFormats, bind, os_call, get_os. cbn.
  now destruct (negb (os_open (os s)) || mem f (os_enum_bad (os s))).
Qed.

Lemma EmptyClipboard_eq (s : Sys) :
  EmptyClipboard s
  = if os_open (os s)
    then (Ret tt, with_os (set_os_clip [] (os_seq (os s) + 1) (os s))
                          (emit (Call EmptyClipboard_) s))
    else (Raise (Error EmptyClipboard_), emit (Call EmptyClipboard_) s).
Proof.
  unfold EmptyClipboard, bind, os_call, get_os. cbn.
  now destruct (os_open (os s)).
Qed.

Lemma CloseClipboard_eq (s : Sys) :
  CloseClipboard s
  = if os_open (os s)
    then (Ret tt, with_os (set_os_open false (os_busy (os s)) (os s))
                          (emit (Call CloseClipboard_) s))
    else (Raise (Error CloseClipboard_), emit (Call CloseClipboard_) s).
Proof.
  unfold CloseClipboard, bind, os_call, get_os. cbn.
  now destruct (os_open (os s)).
Qed.

Lemma restore_format_eq (f : format) (d : payload) (s : Sys) :
  dict_get (_clip_data (self s)) f = Some d ->
  restore_format f s
  = if negb (os_open (os s)) || mem f (os_write_bad (os s))
    then (Ret false,
          emit (Log ERROR (Restore_write_error f (len d)))
               (emit (Call (SetClipboardData_ f d)) s))
    else (Ret true,
          emit (Log DEBUG (Restore_star f (len d)))
               (with_os (set_os_clip (dict_set (os_clip (os s)) f d)
                                     (os_seq (os s) + 1) (os s))
                        (emit (Call (SetClipboardData_ f d)) s))).
Proof.
  intros Hd.
  unfold restore_format, try_except, bind, clip_data_at, get_self,
    SetClipboardData, os_call, get_os.
  cbn. rewrite Hd. cbn.
  destruct (negb (os_open (os s)) || mem f (os_write_bad (os s))); cbn;
    [rewrite Hd|]; reflexivity.
Qed.

Lemma open_attempt_eq (i : Z) (s : Sys) :
  open_attempt i s
  = match os_busy (os s) with
    | S k =>
        (Ret false,
         emit (Log ERROR Open_error)
              (with_os (set_os_open (os_open (os s)) k (os s))
                       (emit (Call OpenClipboard_)
                             (emit (Call (sleep_ (100 * i))) s))))
    | O =>
        (Ret true,
         emit (Log DEBUG Open_success)
              (with_os (set_os_open true O (os s))
                       (emit (Call OpenClipboard_)
                             (emit (Call (sleep_ (100 * i))) s))))
    end.
Proof.
  unfold open_attempt, try_except, bind, time_sleep, OpenClipboard, os_call,
    get_os.
  cbn. now destruct (os_busy (os s)).
Qed.

Section Properties.

(** The format numbers the running system gives to named formats. *)
Variable reg : string -> format.


(** ** Backup *)

Lemma backup_format_total (f : format) (data : dict) (s : Sys) :
  exists data1 s1,
    backup_format reg f data s = (Ret data1, s1) /\ same s s1 /\
    (forall k, In k (keys data1) ->
               In k (keys data) \/ mem k (SUPPORTED_CF reg) = true) /\
    (forall d, os_open (os s) = true ->
               dict_get (os_clip (os s)) f = Some d ->
               data1 = capture reg (os s) data (f, d)).
Proof.
  unfold backup_format, capture. cbn [fst snd].
  destruct (mem f (SUPPORTED_CF reg)) eqn:Hsup.
  - unfold try_except, bind, GetClipboardData, os_call, get_os. cbn.
    destruct (os_open (os s)) eqn:Hopen; cbn.
    + destruct (mem f (os_read_bad (os s))) eqn:Hbad; cbn.
      * eexists _, _. split; [reflexivity|].
        split; [eapply same_trans; apply same_emit|].
        split; [tauto|]. reflexivity.
      * destruct (dict_get (os_clip (os s)) f) as [d|] eqn:Hget; cbn.
        -- eexists _, _. split; [reflexivity|].
           split; [eapply same_trans; apply same_emit|].
           split.
           ++ intros k Hk. apply In_keys_dict_set in Hk.
              destruct Hk as [->|Hk]; [now right | now left].
           ++ intros d' _ Hd'. congruence.
        -- eexists _, _. split; [reflexivity|].
           split; [eapply same_trans; apply same_emit|].
           split; [tauto|]. intros d' _ Hd'. discriminate.
    + eexists _, _. split; [reflexivity|].
      split; [eapply same_trans; apply same_emit|].
      split; [tauto|]. intros d' Hd'. discriminate.
  - unfold bind, logging_debug, logging, ret. cbn.
    eexists _, _. split; [reflexivity|].
    split; [apply same_emit|]. split; [tauto|]. reflexivity.
Qed.


Lemma enum_next_suffix (pre post : dict) (f : format) (d : payload) :
  wf_clip (pre ++ (f, d) :: post) = true ->
  enum_next (pre ++ (f, d) :: post) f = enum_next post 0.
Proof.
  intros Hwf. destruct (wf_clip_split _ _ _ _ Hwf) as (Hf0 & Hpre & _).
  unfold enum_next at 1. apply Z.eqb_neq in Hf0. rewrite Hf0.
  now apply enum_after_app_notin.
Qed.

Lemma enum_ok_In (o : OS) (f : format) :
  enum_ok o = true -> In f (0 :: keys (os_clip o)) ->
  mem f (os_enum_bad o) = false.
Proof.
  unfold enum_ok. rewrite forallb_forall. intros H Hin.
  apply negb_true_iff. now apply H.
Qed.

(** The loop over a well-formed clipboard ends within [length + 1] tests,
    whatever fails on the way, and changes neither [self] nor the
    operating system; when the clipboard is open and enumeration works it
    yields the captured dict. *)
Lemma backup_loop_spec (post : dict) :
  forall (pre : dict) (f : format) (d : payload) (data : dict)
         (fuel : nat) (s : Sys),
    os_clip (os s) = pre ++ (f, d) :: post ->
    wf_clip (os_clip (os s)) = true ->
    (S (length post) < fuel)%nat ->
    exists r s',
      backup_loop reg fuel f data s = (r, s') /\ r <> Diverge /\ same s s' /\
      (os_open (os s) = true -> enum_ok (os s) = true ->
       r = Ret (fold_left (capture reg (os s)) ((f, d) :: post) data)).
Proof.
  induction post as [|[g e] post IH]; intros pre f d data fuel s Hclip Hwf Hfuel.
  all: destruct fuel as [|n]; [simpl in Hfuel; lia|].
  all: pose proof Hwf as Hwf'; rewrite Hclip in Hwf'.
  all: destruct (wf_clip_split _ _ _ _ Hwf') as (Hf0 & Hpre & Hpost).
  all: cbn [backup_loop].
  all: apply Z.eqb_neq in Hf0; rewrite Hf0; cbn [negb].
  all: destruct (backup_format_total f data s) as (data1 & s1 & E1 & Hs1 & _ & Hcap).
  all: unfold bind at 1; rewrite E1.
  all: unfold bind at 1; rewrite EnumClipboardFormats_eq.
  all: assert (Hs2 : same s (emit (Call (EnumClipboardFormats_ f)) s1))
    by (eapply same_trans; [exact Hs1 | apply same_emit]).
  all: destruct Hs1 as (Hself1 & Hos1 & t1 & Ht1).
  all: rewrite Hos1.
  all: destruct (negb (os_open (os s)) || mem f (os_enum_bad (os s))) eqn:Hbad.
  all: try (eexists _, _; split; [reflexivity|]; split; [discriminate|];
            split; [exact Hs2|]; intros Hopen Hok; rewrite Hopen in Hbad;
            rewrite (enum_ok_In _ f Hok) in Hbad; [discriminate|];
            right; rewrite Hclip, keys_app, in_app_iff; right; now left).
  all: apply orb_false_iff in Hbad; destruct Hbad as [Hopen _];
    apply negb_false_iff in Hopen.
  all: rewrite Hclip, (enum_next_suffix _ _ _ _ Hwf').
  all: assert (Hd1 : data1 = capture reg (os s) data (f, d))
    by (apply Hcap; [assumption | rewrite Hclip; now apply dict_get_app_notin]).
  - cbn [enum_next Z.eqb].
    destruct n as [|n]; [simpl in Hfuel; lia|]. cbn.
    eexists _, _. split; [reflexivity|]. split; [discriminate|].
    split; [exact Hs2|]. intros _ _. now rewrite Hd1.
  - cbn [enum_next Z.eqb].
    destruct (IH (pre ++ [(f, d)]) g e data1 n
                 (emit (Call (EnumClipboardFormats_ f)) s1))
      as (r & s' & E & Hr & Hs' & Hres).
    + cbn. rewrite Hos1, Hclip, <- app_assoc. reflexivity.
    + cbn. now rewrite Hos1.
    + simpl in Hfuel |- *. lia.
    + exists r, s'. split; [exact E|]. split; [exact Hr|].
      split; [eapply same_trans; eassumption|].
      intros Ho Hok. cbn in Hres. rewrite Hos1 in Hres.
      rewrite (Hres Ho Hok), Hd1. reflexivity.
Qed.


(** Whatever the fuel and whatever fails, the loop leaves [self] and the
    operating system alone and adds only supported formats to the dict. *)
Lemma backup_loop_inv (fuel : nat) :
  forall (f : format) (data : dict) (s : Sys) (r : res dict) (s' : Sys),
    backup_loop reg fuel f data s = (r, s') ->
    same s s' /\
    forall data', r = Ret data' ->
      forall k, In k (keys data') ->
                In k (keys data) \/ mem k (SUPPORTED_CF reg) = true.
Proof.
  induction fuel as [|n IH]; intros f data s r s' E.
  - cbn in E. inversion E; subst. split; [apply same_refl | discriminate].
  - cbn [backup_loop] in E.
    destruct (f =? 0); cbn [negb] in E.
    + inversion E; subst. split; [apply same_refl|].
      intros data' Hd k Hk. inversion Hd; subst. now left.
    + destruct (backup_format_total f data s) as (data1 & s1 & E1 & Hs1 & Hk1 & _).
      unfold bind at 1 in E. rewrite E1 in E.
      unfold bind at 1 in E. rewrite EnumClipboardFormats_eq in E.
      assert (Hs2 : same s (emit (Call (EnumClipboardFormats_ f)) s1))
        by (eapply same_trans; [exact Hs1 | apply same_emit]).
      destruct (negb (os_open (os s1)) || mem f (os_enum_bad (os s1))).
      * inversion E; subst. split; [exact Hs2 | discriminate].
      * apply IH in E. destruct E as [Hs' Hk'].
        split; [eapply same_trans; eassumption|].
        intros data' Hd k Hk. destruct (Hk' data' Hd k Hk) as [Hin|Hin].
        -- now apply Hk1.
        -- now right.
Qed.

Lemma _backup_clipboard_spec (fuel : nat) (s : Sys) :
  wf_clip (os_clip (os s)) = true ->
  (length (os_clip (os s)) < fuel)%nat ->
  exists r s',
    _backup_clipboard reg fuel s = (r, s') /\ r <> Diverge /\
    os s' = os s /\ (exists t, trace s' = trace s ++ t) /\
    (r <> Ret tt -> self s' = self s) /\
    (os_open (os s) = true -> enum_ok (os s) = true ->
     r = Ret tt /\
     self s' = set_clip_data (fold_left (capture reg (os s)) (os_clip (os s)) [])
                             (self s)).
Proof.
  intros Hwf Hfuel. unfold _backup_clipboard.
  unfold bind at 1. cbn [logging_debug logging].
  unfold bind at 1. rewrite EnumClipboardFormats_eq. cbn [os emit].
  set (s0 := emit (Call (EnumClipboardFormats_ 0)) (emit (Log DEBUG Backup_starts) s)).
  assert (Hs0 : same s s0)
    by (eapply same_trans; apply same_emit).
  destruct (negb (os_open (os s)) || mem 0 (os_enum_bad (os s))) eqn:Hbad.
  { eexists _, _. split; [reflexivity|]. split; [discriminate|].
    destruct Hs0 as (Ha & Hb & Hc).
    split; [exact Hb|]. split; [exact Hc|]. split; [intros _; exact Ha|].
    intros Hopen Hok. rewrite Hopen in Hbad.
    rewrite (enum_ok_In _ 0 Hok) in Hbad; [discriminate | now left]. }
  destruct (os_clip (os s)) as [|[f d] post] eqn:Hclip.
  - cbn [enum_next Z.eqb]. destruct fuel as [|n]; [simpl in Hfuel; lia|].
    cbn. eexists _, _. split; [reflexivity|]. split; [discriminate|].
    split; [reflexivity|].
    split; [eexists; cbn; rewrite <- !app_assoc; reflexivity|].
    split; [intros H; now contradiction H|].
    intros _ _. split; reflexivity.
  - cbn [enum_next Z.eqb].
    destruct (backup_loop_spec post [] f d [] fuel s0)
      as (r & s1 & E & Hr & Hs1 & Hres).
    + subst s0. cbn. exact Hclip.
    + subst s0. cbn. now rewrite Hclip.
    + simpl in Hfuel. lia.
    + unfold bind at 1. rewrite E.
      pose proof (same_trans _ _ _ Hs0 Hs1) as (Ha & Hb & t & Ht).
      destruct r as [data| |]; [| |now contradiction Hr].
      * unfold bind, modify_self, logging_info, logging.
        cbn [os self trace emit with_self].
        eexists _, _. split; [reflexivity|]. split; [discriminate|].
        split; [exact Hb|].
        split; [exists (t ++ [Log INFO (Backed_up (Z.of_nat (length data)))]);
                cbn; rewrite Ht, <- app_assoc; reflexivity|].
        split; [intros H; now contradiction H|].
        intros Hopen Hok. split; [reflexivity|].
        assert (Hd : Ret data = Ret (fold_left (capture reg (os s0)) ((f, d) :: post) []))
          by (apply Hres; subst s0; cbn [os emit]; rewrite ?Hclip; assumption).
        inversion Hd; subst data. rewrite Ha. reflexivity.
      * eexists _, _. split; [reflexivity|]. split; [discriminate|].
        split; [exact Hb|]. split; [now exists t|]. split; [intros _; exact Ha|].
        intros Hopen Hok.
        assert (Hd : Raise e = Ret (fold_left (capture reg (os s0)) ((f, d) :: post) []))
          by (apply Hres; subst s0; cbn [os emit]; rewrite ?Hclip; assumption).
        discriminate.
Qed.

Lemma _backup_clipboard_inv (fuel : nat) (s : Sys) (r : res unit) (s' : Sys) :
  _backup_clipboard reg fuel s = (r, s') ->
  os s' = os s /\
  frame s s' /\
  _last_clip_seq (self s') = _last_clip_seq (self s) /\
  (r <> Ret tt -> self s' = self s) /\
  (r = Ret tt ->
   forall k, In k (keys (_clip_data (self s'))) -> mem k (SUPPORTED_CF reg) = true).
Proof.
  unfold _backup_clipboard.
  unfold bind at 1. cbn [logging_debug logging].
  unfold bind at 1. rewrite EnumClipboardFormats_eq. cbn [os emit].
  set (s0 := emit (Call (EnumClipboardFormats_ 0)) (emit (Log DEBUG Backup_starts) s)).
  assert (Hs0 : same s s0) by (eapply same_trans; apply same_emit).
  destruct (negb (os_open (os s)) || mem 0 (os_enum_bad (os s))).
  { intros E. inversion E; subst.
    split; [apply Hs0|]. split; [now apply same_frame|].
    split; [now destruct Hs0 as [-> _]|].
    split; [intros _; apply Hs0 | discriminate]. }
  unfold bind at 1.
  destruct (backup_loop reg fuel _ [] _) as [r1 s1] eqn:E1.
  apply backup_loop_inv in E1. destruct E1 as [Hs1 Hk].
  pose proof (same_trans _ _ _ Hs0 Hs1) as Hs.
  destruct r1 as [data| |]; unfold modify_self, logging_info, logging, bind;
    intros E; inversion E; subst r s'.
  - assert (Hf : frame s1 (emit (Log INFO (Backed_up (Z.of_nat (length data))))
                                (with_self (set_clip_data data (self s1)) s1))).
    { unfold frame, emit, with_self. cbn. repeat split. eexists. reflexivity. }
    cbn [os self emit with_self set_clip_data _clip_data _last_clip_seq].
    pose proof Hs as (Ha & Hb & Ht).
    split; [assumption|].
    split; [eapply frame_trans; [apply same_frame; exact Hs | exact Hf]|].
    split; [now rewrite Ha|].
    split; [intros H; now contradiction H|].
    intros _ k Hin. destruct (Hk data eq_refl k Hin) as [[]|H]; exact H.
  - split; [apply Hs|]. split; [now apply same_frame|].
    split; [now destruct Hs as [-> _]|].
    split; [intros _; apply Hs | discriminate].
  - split; [apply Hs|]. split; [now apply same_frame|].
    split; [now destruct Hs as [-> _]|].
    split; [intros _; apply Hs | discriminate].
Qed.

(** ** Restore *)

Lemma dict_get_In_nodup (d : dict) (f : format) (v : payload) :
  NoDup (keys d) -> In (f, v) d -> dict_get d f = Some v.
Proof.
  induction d as [|[g e] d IH]; simpl; intros Hnd Hin; [contradiction|].
  inversion Hnd as [|? ? Hg Hnd']; subst.
  destruct Hin as [Heq|Hin].
  - inversion Heq; subst. now rewrite Z.eqb_refl.
  - destruct (Z.eqb_spec g f) as [->|Hne]; [|now apply IH].
    contradiction Hg. change f with (fst (f, v)). now apply in_map.
Qed.

Lemma dict_get_In_keys (d : dict) (f : format) :
  In f (keys d) -> exists v, dict_get d f = Some v.
Proof.
  induction d as [|[g e] d IH]; simpl; intros Hin; [contradiction|].
  destruct (Z.eqb_spec g f) as [->|Hne]; [now exists e|].
  apply IH. destruct Hin; [contradiction | assumption].
Qed.

(** On an open clipboard the restore loop is [write_all]. *)
Lemma restore_loop_spec (entries : dict) :
  forall s : Sys,
    os_open (os s) = true ->
    (forall f d, In (f, d) entries ->
                 dict_get (_clip_data (self s)) f = Some d) ->
    restore_loop (keys entries) s
    = (Ret (fst (write_all entries (os s))),
       mkSys (self s) (snd (write_all entries (os s)))
             (trace s ++ restore_trace (os_write_bad (os s)) entries)).
Proof.
  induction entries as [|[f d] entries IH]; intros s Hopen Hget.
  - cbn. rewrite app_nil_r. now destruct s.
  - cbn [keys map fst restore_loop write_all restore_trace].
    unfold bind at 1. rewrite (restore_format_eq f d) by (apply Hget; now left).
    rewrite Hopen. cbn [negb orb].
    destruct (mem f (os_write_bad (os s))) eqn:Hbad.
    + unfold ret, emit. cbn. rewrite <- !app_assoc. reflexivity.
    + rewrite IH.
      * unfold emit, with_os. cbn. rewrite <- !app_assoc. reflexivity.
      * cbn. exact Hopen.
      * intros g e Hin. cbn. apply Hget. now right.
Qed.

(** Each round of the restore loop, whatever the state of the clipboard. *)
Lemma restore_format_total (f : format) (d : payload) (s : Sys) :
  dict_get (_clip_data (self s)) f = Some d ->
  exists b s1,
    restore_format f s = (Ret b, s1) /\ self s1 = self s /\ frame s s1 /\
    os_open (os s1) = os_open (os s) /\ os_busy (os s1) = os_busy (os s).
Proof.
  intros Hd. rewrite (restore_format_eq f d s Hd).
  destruct (negb (os_open (os s)) || mem f (os_write_bad (os s))).
  all: eexists _, _; split; [reflexivity|]; unfold frame, emit, with_os; cbn.
  all: repeat split; eexists; rewrite <- !app_assoc; reflexivity.
Qed.

Lemma restore_loop_total (formats : list format) :
  forall s : Sys,
    (forall f, In f formats -> In f (keys (_clip_data (self s)))) ->
    exists b s',
      restore_loop formats s = (Ret b, s') /\ self s' = self s /\
      frame s s' /\
      os_open (os s') = os_open (os s) /\ os_busy (os s') = os_busy (os s).
Proof.
  induction formats as [|f formats IH]; intros s Hin.
  - exists true, s. cbn. repeat split. apply frame_refl.
  - destruct (dict_get_In_keys _ f (Hin f (or_introl eq_refl))) as [d Hd].
    destruct (restore_format_total f d s Hd) as (b & s1 & E1 & Hs1 & Hf1 & Ho1 & Hb1).
    cbn [restore_loop]. unfold bind at 1. rewrite E1.
    destruct b.
    + destruct (IH s1) as (b' & s' & E & Hs' & Hf' & Ho' & Hb').
      { intros g Hg. rewrite Hs1. apply Hin. now right. }
      exists b', s'. split; [exact E|].
      split; [congruence|]. split; [eapply frame_trans; eassumption|].
      split; congruence.
    + exists false, s1. split; [reflexivity|].
      split; [assumption|]. split; [assumption|]. split; assumption.
Qed.

(** A restore never changes [self]; on an open clipboard it returns
    normally. *)
Lemma _restore_clipboard_total (s : Sys) :
  exists r s',
    _restore_clipboard s = (r, s') /\ r <> Diverge /\ self s' = self s /\
    frame s s' /\
    os_open (os s') = os_open (os s) /\ os_busy (os s') = os_busy (os s) /\
    (os_open (os s) = true -> r = Ret tt).
Proof.
  unfold _restore_clipboard, bind at 1, get_self.
  destruct (_clip_data (self s)) as [|[f d] snapshot] eqn:Hsnap; cbn [dict_is_empty].
  - eexists _, _. split; [reflexivity|]. split; [discriminate|].
    cbn. repeat split. now exists [Log DEBUG (Nothing_to_restore (_last_clip_seq (self s)))].
  - unfold bind at 1. cbn [logging_debug logging].
    unfold bind at 1. rewrite EmptyClipboard_eq. cbn [os emit].
    destruct (os_open (os s)) eqn:Hopen.
    + set (s0 := with_os _ _).
      destruct (restore_loop_total (keys ((f, d) :: snapshot)) s0)
        as (b & s' & E & Hs' & Hf' & Ho' & Hb').
      { intros g Hg. subst s0. cbn [self with_os emit]. rewrite Hsnap. exact Hg. }
      unfold bind at 1. rewrite E.
      assert (Hf0 : frame s s').
      { eapply frame_trans; [|exact Hf']. subst s0.
        unfold frame, with_os, emit. cbn. repeat split.
        eexists. rewrite <- !app_assoc. reflexivity. }
      subst s0. cbn in Hs', Ho', Hb'. rewrite Hopen in Ho'.
      destruct b; cbn [logging_info logging ret].
      * eexists _, _. split; [reflexivity|]. split; [discriminate|].
        cbn [self os emit]. split; [assumption|].
        split; [eapply frame_trans; [exact Hf0 | apply same_frame, same_emit]|].
        split; [assumption|]. split; [assumption | reflexivity].
      * eexists _, _. split; [reflexivity|]. split; [discriminate|].
        split; [assumption|]. split; [assumption|].
        split; [assumption|]. split; [assumption | reflexivity].
    + eexists _, _. split; [reflexivity|]. split; [discriminate|].
      unfold frame, emit. cbn. repeat split; try discriminate; try assumption.
      eexists. rewrite <- !app_assoc. reflexivity.
Qed.


Lemma write_all_until (pre : dict) :
  forall (o : OS) (f : format) (d : payload) (post : dict),
    (forall g, In g (keys pre) -> mem g (os_write_bad o) = false) ->
    mem f (os_write_bad o) = true ->
    NoDup (keys (os_clip o) ++ keys pre) ->
    fst (write_all (pre ++ (f, d) :: post) o) = false /\
    os_clip (snd (write_all (pre ++ (f, d) :: post) o)) = os_clip o ++ pre.
Proof.
  induction pre as [|[g e] pre IH]; intros o f d post Hok Hbad Hnd.
  - cbn. rewrite Hbad. cbn. now rewrite app_nil_r.
  - cbn [app write_all]. rewrite (Hok g) by now left.
    destruct (IH (set_os_clip (dict_set (os_clip o) g e) (os_seq o + 1) o) f d post)
      as [H1 H2].
    + intros h Hh. cbn. apply Hok. now right.
    + exact Hbad.
    + cbn [os_clip set_os_clip]. cbn [keys map fst] in Hnd.
      rewrite dict_set_notin, keys_app.
      * cbn [keys map fst app]. now rewrite <- app_assoc.
      * apply NoDup_remove_2 in Hnd. rewrite in_app_iff in Hnd. tauto.
    + split; [exact H1|]. rewrite H2. cbn [os_clip set_os_clip].
      cbn [keys map fst] in Hnd.
      rewrite dict_set_notin, <- app_assoc; [reflexivity|].
      apply NoDup_remove_2 in Hnd. rewrite in_app_iff in Hnd. tauto.
Qed.

Lemma write_all_whole (entries : dict) :
  forall o : OS,
    (forall g, In g (keys entries) -> mem g (os_write_bad o) = false) ->
    NoDup (keys (os_clip o) ++ keys entries) ->
    fst (write_all entries o) = true /\
    os_clip (snd (write_all entries o)) = os_clip o ++ entries.
Proof.
  induction entries as [|[g e] entries IH]; intros o Hok Hnd.
  - cbn. now rewrite app_nil_r.
  - cbn [write_all]. rewrite (Hok g) by now left.
    cbn [keys map fst] in Hnd.
    assert (Hg : ~ In g (keys (os_clip o))).
    { apply NoDup_remove_2 in Hnd. rewrite in_app_iff in Hnd. tauto. }
    destruct (IH (set_os_clip (dict_set (os_clip o) g e) (os_seq o + 1) o))
      as [H1 H2].
    + intros h Hh. cbn. apply Hok. now right.
    + cbn [os_clip set_os_clip]. rewrite dict_set_notin, keys_app by exact Hg.
      cbn [keys map fst app]. now rewrite <- app_assoc.
    + split; [exact H1|]. rewrite H2. cbn [os_clip set_os_clip].
      rewrite dict_set_notin, <- app_assoc by exact Hg. reflexivity.
Qed.

Lemma restore_trace_until (bad : list format) (pre : dict) :
  forall (f : format) (d : payload) (post : dict),
    (forall g, In g (keys pre) -> mem g bad = false) ->
    mem f bad = true ->
    exists t,
      restore_trace bad (pre ++ (f, d) :: post)
      = t ++ [Call (SetClipboardData_ f d);
              Log ERROR (Restore_write_error f (len d))] /\
      writes_of t = pre.
Proof.
  induction pre as [|[g e] pre IH]; intros f d post Hok Hbad.
  - exists []. cbn. now rewrite Hbad.
  - destruct (IH f d post) as (t & Ht & Hw).
    + intros h Hh. apply Hok. now right.
    + exact Hbad.
    + exists (Call (SetClipboardData_ g e) :: Log DEBUG (Restore_star g (len e)) :: t).
      cbn [app restore_trace]. rewrite (Hok g) by now left.
      rewrite Ht. cbn. now rewrite Hw.
Qed.

(** On an open clipboard, a restore of a non-empty snapshot is an
    [EmptyClipboard] followed by [write_all]. *)
Lemma _restore_clipboard_open (s : Sys) :
  _clip_data (self s) <> [] ->
  nodupb (keys (_clip_data (self s))) = true ->
  os_open (os s) = true ->
  _restore_clipboard s
  = let w := write_all (_clip_data (self s))
                       (set_os_clip [] (os_seq (os s) + 1) (os s)) in
    (Ret tt,
     mkSys (self s) (snd w)
           (trace s ++ [Log DEBUG Restore_starts; Call EmptyClipboard_]
                    ++ restore_trace (os_write_bad (os s)) (_clip_data (self s))
                    ++ (if fst w
                        then [Log INFO (Restored (Z.of_nat (length (_clip_data (self s)))))]
                        else []))).
Proof.
  intros Hne Hnd Hopen. apply nodupb_NoDup in Hnd.
  unfold _restore_clipboard, bind at 1, get_self.
  destruct (_clip_data (self s)) as [|[f d] snapshot] eqn:Hsnap;
    [now contradiction Hne|].
  cbn [dict_is_empty].
  unfold bind at 1. cbn [logging_debug logging].
  unfold bind at 1. rewrite EmptyClipboard_eq. cbn [os emit]. rewrite Hopen.
  unfold bind at 1. rewrite restore_loop_spec.
  - cbn [os with_os emit self trace os_write_bad set_os_clip].
    cbv zeta.
    destruct (fst (write_all ((f, d) :: snapshot) _)).
    + unfold logging_info, logging, emit. cbn [self os trace].
      rewrite <- !app_assoc. reflexivity.
    + unfold ret. rewrite app_nil_r, <- !app_assoc. reflexivity.
  - exact Hopen.
  - intros g e Hin. cbn [self with_os emit]. rewrite Hsnap.
    now apply dict_get_In_nodup.
Qed.


(** C7: [_restore_clipboard] called with an empty snapshot returns at once:
    [self] and the operating system, hence the clipboard contents, are
    what they were, and the only new trace entry is the debug message, so
    neither [EmptyClipboard] nor [SetClipboardData] is called. *)
Theorem restore_empty_snapshot_is_noop (s : Sys) :
  _clip_data (self s) = [] ->
  _restore_clipboard s
  = (Ret tt,
     mkSys (self s) (os s)
           (trace s ++ [Log DEBUG (Nothing_to_restore (_last_clip_seq (self s)))])).
Proof.
  intros Hempty. unfold _restore_clipboard, bind at 1, get_self.
  rewrite Hempty. reflexivity.
Qed.

(** C10: a restore leaves [self], and so the snapshot, as it was, whatever
    its outcome.  With a non-empty snapshot the first thing it does to the
    clipboard is the [EmptyClipboard] call, before any write; when that
    call is refused (clipboard not open) no write follows at all, and when
    the clipboard is open and the write of the first format fails, the
    restore returns with the clipboard empty. *)
Theorem restore_empties_first_and_keeps_snapshot
  (s : Sys) (r : res unit) (s' : Sys) :
  _restore_clipboard s = (r, s') ->
  _clip_data (self s') = _clip_data (self s) /\
  forall f d rest,
    _clip_data (self s) = (f, d) :: rest ->
    (exists t, trace s' = trace s ++ Log DEBUG Restore_starts
                                  :: Call EmptyClipboard_ :: t /\
               (os_open (os s) = false -> t = [])) /\
    (os_open (os s) = true -> mem f (os_write_bad (os s)) = true ->
     r = Ret tt /\ os_clip (os s') = [] /\
     trace s' = trace s ++ [Log DEBUG Restore_starts; Call EmptyClipboard_;
                            Call (SetClipboardData_ f d);
                            Log ERROR (Restore_write_error f (len d))]).
Proof.
  intros E.
  destruct (_restore_clipboard_total s) as (r0 & s0 & E0 & _ & Hself & _).
  rewrite E in E0. inversion E0; subst r0 s0.
  split; [now rewrite Hself|].
  intros f d rest Hsnap.
  revert E. unfold _restore_clipboard, bind at 1, get_self.
  rewrite Hsnap. cbn [dict_is_empty].
  unfold bind at 1. cbn [logging_debug logging].
  unfold bind at 1. rewrite EmptyClipboard_eq. cbn [os emit].
  destruct (os_open (os s)) eqn:Hopen.
  - cbn [keys map fst restore_loop]. unfold bind at 1, bind at 1.
    rewrite (restore_format_eq f d)
      by (cbn [self with_os emit]; rewrite Hsnap; cbn; now rewrite Z.eqb_refl).
    cbn [os with_os emit os_open set_os_clip os_write_bad].
    rewrite Hopen. cbn [negb orb].
    destruct (mem f (os_write_bad (os s))) eqn:Hbad.
    + unfold ret, emit, with_os. cbn. intros E. inversion E; subst. cbn.
      rewrite <- !app_assoc. cbn [app]. split.
      * eexists. split; [reflexivity | discriminate].
      * intros _ _. repeat split.
    + intros E.
      match type of E with
      | (match restore_loop ?ks ?s1 with _ => _ end) = _ =>
          destruct (restore_loop_total ks s1) as (b & s2 & E2 & _ & Hf2 & _)
      end.
      { intros g Hg. cbn. rewrite Hsnap. now right. }
      rewrite E2 in E. destruct Hf2 as (_ & _ & _ & _ & _ & _ & _ & _ & _ & t2 & Ht2).
      cbn in Ht2. rewrite <- !app_assoc in Ht2. cbn [app] in Ht2.
      split; [|discriminate].
      destruct b.
      * unfold logging_info, logging, emit in E. inversion E; subst. cbn.
        eexists. split; [|discriminate].
        rewrite Ht2, <- app_assoc. cbn [app]. reflexivity.
      * unfold ret in E. inversion E; subst.
        eexists. split; [|discriminate]. rewrite Ht2. reflexivity.
  - intros E. inversion E; subst. cbn. rewrite <- !app_assoc. cbn [app].
    split; [|discriminate].
    exists []. split; reflexivity.
Qed.

(** C6: restoring a snapshot [pre ++ (f, d) :: post] on an open clipboard
    where the formats of [pre] can be written and the write of [f] fails:
    the restore returns normally without touching [self]; the last two
    trace entries are the failing [SetClipboardData] call and the error
    message, and the writes before it are exactly those of [pre], so no
    format of [post] is attempted; the clipboard, emptied first, holds
    exactly the entries of [pre]. *)
Theorem restore_stops_at_first_failed_write
  (s : Sys) (pre post : dict) (f : format) (d : payload) :
  _clip_data (self s) = pre ++ (f, d) :: post ->
  nodupb (keys (_clip_data (self s))) = true ->
  os_open (os s) = true ->
  (forall g, In g (keys pre) -> mem g (os_write_bad (os s)) = false) ->
  mem f (os_write_bad (os s)) = true ->
  exists s' t,
    _restore_clipboard s = (Ret tt, s') /\
    self s' = self s /\
    os_clip (os s') = pre /\
    trace s' = trace s ++ [Log DEBUG Restore_starts; Call EmptyClipboard_]
                       ++ t
                       ++ [Call (SetClipboardData_ f d);
                           Log ERROR (Restore_write_error f (len d))] /\
    writes_of t = pre.
Proof.
  intros Hsnap Hnd Hopen Hok Hbad.
  rewrite _restore_clipboard_open; try assumption;
    [|rewrite Hsnap; now destruct pre].
  cbv zeta. rewrite Hsnap in *.
  destruct (write_all_until pre (set_os_clip [] (os_seq (os s) + 1) (os s)) f d post)
    as [Hfst Hclip]; try assumption.
  { cbn. apply nodupb_NoDup in Hnd. rewrite keys_app in Hnd.
    now apply NoDup_app_remove_r in Hnd. }
  destruct (restore_trace_until (os_write_bad (os s)) pre f d post Hok Hbad)
    as (t & Ht & Hw).
  rewrite Hfst, Ht.
  eexists _, t. split; [reflexivity|]. cbn [self os trace].
  split; [reflexivity|]. split; [exact Hclip|].
  split; [|exact Hw]. now rewrite app_nil_r.
Qed.


(** ** One evaluation of a clipboard change *)

(** The retry loop never raises; it leaves the clipboard open exactly when
    fewer attempts are refused than there are rounds. *)
Lemma open_attempts_spec (range : list Z) :
  forall s : Sys,
    exists s',
      open_attempts range s = (Ret tt, s') /\ self s' = self s /\
      frame s s' /\
      os_clip (os s') = os_clip (os s) /\ os_seq (os s') = os_seq (os s) /\
      if (os_busy (os s) <? length range)%nat
      then os_open (os s') = true /\ os_busy (os s') = O
      else os_open (os s') = os_open (os s) /\
           os_busy (os s') = (os_busy (os s) - length range)%nat.
Proof.
  induction range as [|i range IH]; intros s.
  - exists s. cbn. rewrite Nat.sub_0_r. repeat split. apply frame_refl.
  - cbn [open_attempts]. unfold bind at 1. rewrite open_attempt_eq.
    destruct (os_busy (os s)) as [|k] eqn:Hbusy.
    + eexists. split; [reflexivity|]. unfold frame, emit, with_os. cbn.
      repeat split. eexists. rewrite <- !app_assoc. reflexivity.
    + match goal with
      | |- context [open_attempts range ?s1] => destruct (IH s1)
          as (s' & E & Hself & Hframe & Hclip & Hseq & Hopen)
      end.
      exists s'. split; [exact E|].
      split; [exact Hself|].
      split.
      { eapply frame_trans; [|exact Hframe].
        unfold frame, emit, with_os. cbn. repeat split.
        eexists. rewrite <- !app_assoc. reflexivity. }
      split; [exact Hclip|]. split; [exact Hseq|].
      cbn in Hopen. cbn [length Nat.ltb Nat.leb Nat.sub].
      exact Hopen.
Qed.

Lemma process_clip_finally_eq (s : Sys) :
  process_clip_finally s
  = if os_open (os s)
    then (Ret tt,
          mkSys (set_last_clip_seq (os_seq (os s)) (self s))
                (set_os_open false (os_busy (os s)) (os s))
                (trace s ++ [Call CloseClipboard_; Log DEBUG Closed;
                             Call GetClipboardSequenceNumber_]))
    else (Raise (Error CloseClipboard_), emit (Call CloseClipboard_) s).
Proof.
  unfold process_clip_finally. unfold bind at 1. rewrite CloseClipboard_eq.
  destruct (os_open (os s)); [|reflexivity].
  unfold bind, logging_debug, logging, GetClipboardSequenceNumber, os_call,
    get_os, modify_self, ret, emit, with_os, with_self.
  cbn. rewrite <- !app_assoc. reflexivity.
Qed.

(** The [try] block: what it never changes, and what it does on a
    clipboard that was not opened. *)
Lemma process_clip_try_inv (fuel : nat) (s : Sys) (r : res unit) (s' : Sys) :
  process_clip_try reg fuel s = (r, s') ->
  frame s s' /\
  os_open (os s') = os_open (os s) /\ os_busy (os s') = os_busy (os s) /\
  _last_clip_seq (self s') = _last_clip_seq (self s) /\
  (os_open (os s) = false ->
   r = Raise (Error (EnumClipboardFormats_ 0)) /\ self s' = self s /\
   os s' = os s /\ trace s' = trace s ++ [Call (EnumClipboardFormats_ 0)]).
Proof.
  unfold process_clip_try. unfold bind at 1. rewrite EnumClipboardFormats_eq.
  destruct (os_open (os s)) eqn:Hopen; cbn [negb orb].
  - destruct (mem 0 (os_enum_bad (os s))).
    { intros E. inversion E; subst.
      split; [apply same_frame, same_emit|]. cbn.
      repeat split; try assumption; discriminate. }
    unfold bind at 1. cbn [logging_debug logging].
    set (s1 := emit _ (emit _ s)).
    assert (Hs1 : same s s1) by (eapply same_trans; apply same_emit).
    destruct (negb (enum_next (os_clip (os s)) 0 =? 0)); intros E.
    + apply _backup_clipboard_inv in E.
      destruct E as (Hos & Hf & Hseq & _).
      split; [eapply frame_trans; [apply same_frame; exact Hs1 | exact Hf]|].
      rewrite Hos, Hseq. cbn. repeat split; try assumption; discriminate.
    + destruct (_restore_clipboard_total s1)
        as (r0 & s0 & E0 & _ & Hself & Hf & Ho & Hb & _).
      rewrite E in E0. inversion E0; subst r0 s0.
      split; [eapply frame_trans; [apply same_frame; exact Hs1 | exact Hf]|].
      rewrite Ho, Hb, Hself. cbn. repeat split; try assumption; discriminate.
  - intros E. inversion E; subst.
    split; [apply same_frame, same_emit|]. cbn.
    repeat split; assumption.
Qed.


Lemma process_clip_try_total (fuel : nat) (s : Sys) :
  wf_clip (os_clip (os s)) = true ->
  (length (os_clip (os s)) < fuel)%nat ->
  exists r s',
    process_clip_try reg fuel s = (r, s') /\ r <> Diverge /\
    (os_open (os s) = true -> enum_ok (os s) = true -> r = Ret tt).
Proof.
  intros Hwf Hfuel.
  unfold process_clip_try. unfold bind at 1. rewrite EnumClipboardFormats_eq.
  destruct (negb (os_open (os s)) || mem 0 (os_enum_bad (os s))) eqn:Hbad.
  { eexists _, _. split; [reflexivity|]. split; [discriminate|].
    intros Hopen Hok. rewrite Hopen in Hbad.
    rewrite (enum_ok_In _ 0 Hok) in Hbad; [discriminate | now left]. }
  unfold bind at 1. cbn [logging_debug logging].
  set (s1 := emit _ (emit _ s)).
  destruct (negb (enum_next (os_clip (os s)) 0 =? 0)).
  - destruct (_backup_clipboard_spec fuel s1 Hwf Hfuel)
      as (r & s' & E & Hr & _ & _ & _ & Hres).
    exists r, s'. split; [exact E|]. split; [exact Hr|].
    intros Hopen Hok. now apply Hres.
  - destruct (_restore_clipboard_total s1) as (r & s' & E & Hr & _ & _ & _ & _ & Hres).
    exists r, s'. split; [exact E|]. split; [exact Hr|].
    intros Hopen _. now apply Hres.
Qed.


Lemma _process_clip_duplicate (fuel : nat) (s : Sys) :
  os_seq (os s) <= _last_clip_seq (self s) ->
  _process_clip reg fuel s
  = (Ret tt,
     mkSys (self s) (os s)
           (trace s ++ [Call GetClipboardSequenceNumber_;
                        Log DEBUG (Start_sequence (os_seq (os s))
                                                  (_last_clip_seq (self s)));
                        Log DEBUG (Ignore_processed (os_seq (os s)))])).
Proof.
  intros Hle. unfold _process_clip.
  unfold bind at 1. rewrite GetClipboardSequenceNumber_eq.
  unfold bind at 1, get_self. unfold bind at 1. cbn [logging_debug logging].
  cbn [self emit]. rewrite Z.geb_leb.
  destruct (Z.leb_spec (os_seq (os s)) (_last_clip_seq (self s))); [|lia].
  unfold bind, logging, ret. cbn. unfold emit. cbn.
  rewrite <- !app_assoc. reflexivity.
Qed.

Lemma _process_clip_newer (fuel : nat) (s : Sys) :
  _last_clip_seq (self s) < os_seq (os s) ->
  _process_clip reg fuel s
  = (open_attempts [1; 2; 3; 4] ;;
     try_finally (process_clip_try reg fuel) process_clip_finally)
      (before_open s).
Proof.
  intros Hlt. unfold _process_clip.
  unfold bind at 1. rewrite GetClipboardSequenceNumber_eq.
  unfold bind at 1, get_self. unfold bind at 1. cbn [logging_debug logging].
  cbn [self emit]. rewrite Z.geb_leb.
  destruct (Z.leb_spec (os_seq (os s)) (_last_clip_seq (self s))); [lia|].
  unfold bind at 1. reflexivity.
Qed.

Lemma same_before_open (s : Sys) : same s (before_open s).
Proof.
  unfold before_open.
  eapply same_trans; [apply same_emit|].
  eapply same_trans; apply same_emit.
Qed.

(** An evaluation changes nothing outside the clipboard, the snapshot and
    the cursor, whatever its outcome. *)
Lemma _process_clip_frame (fuel : nat) (s : Sys) (r : res unit) (s' : Sys) :
  _process_clip reg fuel s = (r, s') -> frame s s'.
Proof.
  destruct (Z.le_gt_cases (os_seq (os s)) (_last_clip_seq (self s))) as [Hle|Hlt].
  - rewrite _process_clip_duplicate by exact Hle. intros E. inversion E; subst.
    unfold frame. cbn. repeat split. eexists. reflexivity.
  - rewrite _process_clip_newer by exact Hlt.
    pose proof (same_frame _ _ (same_before_open s)) as Hf0.
    destruct (open_attempts_spec [1; 2; 3; 4] (before_open s))
      as (s2 & E2 & _ & Hf2 & _).
    unfold bind at 1. rewrite E2. unfold try_finally.
    destruct (process_clip_try reg fuel s2) as [r3 s3] eqn:E3.
    apply process_clip_try_inv in E3. destruct E3 as (Hf3 & _).
    assert (Hf : frame s s3)
      by (eapply frame_trans; [exact Hf0|]; eapply frame_trans; eassumption).
    rewrite process_clip_finally_eq.
    assert (Hf4 : frame s3 (mkSys (set_last_clip_seq (os_seq (os s3)) (self s3))
                                  (set_os_open false (os_busy (os s3)) (os s3))
                                  (trace s3 ++ [Call CloseClipboard_; Log DEBUG Closed;
                                                Call GetClipboardSequenceNumber_])))
      by (unfold frame; cbn; repeat split; eexists; reflexivity).
    assert (Hf5 : frame s3 (emit (Call CloseClipboard_) s3))
      by apply same_frame, same_emit.
    destruct r3; destruct (os_open (os s3)); intros E; inversion E; subst;
      solve [exact Hf | eapply frame_trans; eassumption].
Qed.


(** An evaluation of a new sequence number that gets the clipboard open
    within its four attempts. *)
Lemma _process_clip_acquired (fuel : nat) (s : Sys) :
  _last_clip_seq (self s) < os_seq (os s) ->
  (os_busy (os s) < 4)%nat ->
  wf_clip (os_clip (os s)) = true ->
  (length (os_clip (os s)) < fuel)%nat ->
  exists r s',
    _process_clip reg fuel s = (r, s') /\ r <> Diverge /\
    os_open (os s') = false /\
    _last_clip_seq (self s') = os_seq (os s') /\
    (exists t, trace s' = trace s ++ t ++ [Call CloseClipboard_; Log DEBUG Closed;
                                           Call GetClipboardSequenceNumber_]) /\
    (enum_ok (os s) = true -> r = Ret tt).
Proof.
  intros Hlt Hbusy Hwf Hfuel.
  rewrite _process_clip_newer by exact Hlt.
  pose proof (same_before_open s) as (_ & Hos0 & t0 & Ht0).
  destruct (open_attempts_spec [1; 2; 3; 4] (before_open s))
    as (s2 & E2 & _ & Hf2 & Hclip2 & _ & Hopen2).
  rewrite Hos0 in Hopen2, Hclip2.
  cbn [length] in Hopen2. apply Nat.ltb_lt in Hbusy. rewrite Hbusy in Hopen2.
  destruct Hopen2 as [Hopen2 _].
  unfold bind at 1. rewrite E2. unfold try_finally.
  destruct (process_clip_try_total fuel s2) as (r3 & s3 & E3 & Hr3 & Hres3);
    [now rewrite Hclip2 | now rewrite Hclip2 |].
  rewrite E3. apply process_clip_try_inv in E3.
  destruct E3 as (Hf3 & Hopen3 & _).
  rewrite process_clip_finally_eq, Hopen3, Hopen2.
  pose proof (frame_trans _ _ _ Hf2 Hf3)
    as (_ & _ & _ & Hbad & _ & _ & _ & _ & _ & t3 & Ht3).
  assert (Hok : enum_ok (os s) = true -> r3 = Ret tt).
  { intros Hok. apply Hres3; [exact Hopen2|].
    unfold enum_ok in *. destruct Hf2 as (_ & _ & _ & Hbad2 & _).
    rewrite Hbad2, Hclip2, Hos0. exact Hok. }
  assert (Htrace : exists t,
             trace s3 ++ [Call CloseClipboard_; Log DEBUG Closed;
                          Call GetClipboardSequenceNumber_]
             = trace s ++ t ++ [Call CloseClipboard_; Log DEBUG Closed;
                                Call GetClipboardSequenceNumber_]).
  { exists (t0 ++ t3). rewrite Ht3, Ht0, <- !app_assoc. reflexivity. }
  destruct r3 as [[]| |]; [| |now contradiction Hr3].
  - eexists _, _. split; [reflexivity|]. split; [discriminate|].
    cbn. split; [reflexivity|]. split; [reflexivity|].
    split; [exact Htrace|]. reflexivity.
  - eexists _, _. split; [reflexivity|]. split; [discriminate|].
    cbn. split; [reflexivity|]. split; [reflexivity|].
    split; [exact Htrace|]. exact Hok.
Qed.


(** ** The claims about backup and evaluation *)

Lemma capture_keys (o : OS) (entries : dict) :
  forall data : dict,
    NoDup (keys data ++ keys entries) ->
    (forall f, In f (keys entries) -> mem f (SUPPORTED_CF reg) = true ->
               mem f (os_read_bad o) = false) ->
    keys (fold_left (capture reg o) entries data)
    = keys data ++ filter (fun f => mem f (SUPPORTED_CF reg)) (keys entries).
Proof.
  induction entries as [|[f d] entries IH]; intros data Hnd Hread.
  - cbn. now rewrite app_nil_r.
  - cbn [fold_left keys map fst filter]. unfold capture at 2. cbn [fst snd].
    cbn [keys map fst] in Hnd.
    destruct (mem f (SUPPORTED_CF reg)) eqn:Hsup.
    + rewrite (Hread f) by (try assumption; now left). cbn [negb andb].
      assert (Hf : ~ In f (keys data)).
      { apply NoDup_remove_2 in Hnd. rewrite in_app_iff in Hnd. tauto. }
      rewrite IH.
      * rewrite dict_set_notin, keys_app by exact Hf.
        cbn [keys map fst]. now rewrite <- app_assoc.
      * rewrite dict_set_notin, keys_app by exact Hf.
        cbn [keys map fst]. now rewrite <- app_assoc.
      * intros g Hg. apply Hread. now right.
    + cbn [andb]. apply IH.
      * now apply NoDup_remove_1 in Hnd.
      * intros g Hg. apply Hread. now right.
Qed.

(** C3: a backup pass on an open, well-formed clipboard whose enumeration
    and per-format reads all succeed returns normally and leaves a snapshot
    whose keys are the enumerated formats that are in [SUPPORTED_CF], in
    enumeration order.  And for every backup pass, whatever fails in it
    and whatever fuel it has: a pass that returns leaves only supported
    formats as keys, and a pass that does not return leaves the snapshot
    it found, so a snapshot without unsupported keys stays without. *)
Theorem backup_captures_supported_formats (fuel : nat) (s : Sys) :
  (os_open (os s) = true ->
   wf_clip (os_clip (os s)) = true ->
   enum_ok (os s) = true ->
   (forall f, In f (keys (os_clip (os s))) ->
              mem f (SUPPORTED_CF reg) = true ->
              mem f (os_read_bad (os s)) = false) ->
   (length (os_clip (os s)) < fuel)%nat ->
   exists s',
     _backup_clipboard reg fuel s = (Ret tt, s') /\
     keys (_clip_data (self s'))
     = filter (fun f => mem f (SUPPORTED_CF reg)) (keys (os_clip (os s)))) /\
  (forall r s',
     _backup_clipboard reg fuel s = (r, s') ->
     (r = Ret tt ->
      forall k, In k (keys (_clip_data (self s'))) ->
                mem k (SUPPORTED_CF reg) = true) /\
     ((forall k, In k (keys (_clip_data (self s))) ->
                 mem k (SUPPORTED_CF reg) = true) ->
      forall k, In k (keys (_clip_data (self s'))) ->
                mem k (SUPPORTED_CF reg) = true)).
Proof.
  split.
  - intros Hopen Hwf Hok Hread Hfuel.
    destruct (_backup_clipboard_spec fuel s Hwf Hfuel)
      as (r & s' & E & _ & _ & _ & _ & Hres).
    destruct (Hres Hopen Hok) as [-> Hself].
    exists s'. split; [exact E|].
    rewrite Hself. cbn [_clip_data set_clip_data].
    rewrite capture_keys; [reflexivity| |exact Hread].
    cbn [keys map app]. unfold wf_clip in Hwf.
    apply andb_true_iff in Hwf. now apply nodupb_NoDup.
  - intros r s' E. apply _backup_clipboard_inv in E.
    destruct E as (_ & _ & _ & Hkeep & Hnew).
    split; [exact Hnew|].
    intros Hold k Hk.
    destruct r as [[]| |].
    + now apply Hnew.
    + rewrite Hkeep in Hk by discriminate. now apply Hold.
    + rewrite Hkeep in Hk by discriminate. now apply Hold.
Qed.

(** C1: on an open clipboard that holds exactly the two different formats
    [A] and [B], both supported, with every enumeration, read and write
    succeeding: the backup returns with the snapshot [{A: a, B: b}]; after
    the clipboard has been emptied from outside, the restore returns and
    the clipboard holds exactly [{A: a, B: b}] again. *)
Theorem backup_empty_restore_roundtrip
  (fuel : nat) (s : Sys) (A B : format) (a b : payload) :
  os_clip (os s) = [(A, a); (B, b)] ->
  A <> B -> A <> 0 -> B <> 0 ->
  mem A (SUPPORTED_CF reg) = true ->
  mem B (SUPPORTED_CF reg) = true ->
  os_open (os s) = true ->
  enum_ok (os s) = true ->
  mem A (os_read_bad (os s)) = false ->
  mem B (os_read_bad (os s)) = false ->
  mem A (os_write_bad (os s)) = false ->
  mem B (os_write_bad (os s)) = false ->
  (2 < fuel)%nat ->
  exists s1 s2,
    _backup_clipboard reg fuel s = (Ret tt, s1) /\
    _clip_data (self s1) = [(A, a); (B, b)] /\
    os_clip (os (external_empty s1)) = [] /\
    _restore_clipboard (external_empty s1) = (Ret tt, s2) /\
    os_clip (os s2) = [(A, a); (B, b)].
Proof.
  intros Hclip HAB HA0 HB0 HsA HsB Hopen Hok HrA HrB HwA HwB Hfuel.
  assert (Hnd : NoDup [A; B]).
  { constructor; [intros [H|[]]; now apply HAB | constructor; [intros []|constructor]]. }
  assert (Hwf : wf_clip (os_clip (os s)) = true).
  { rewrite Hclip. unfold wf_clip. apply andb_true_iff. split.
    - apply negb_true_iff, mem_not_In. cbn. intuition.
    - now apply nodupb_NoDup. }
  apply Z.eqb_neq in HAB.
  destruct (_backup_clipboard_spec fuel s Hwf) as (r & s1 & E & _ & Hos & _ & _ & Hres);
    [rewrite Hclip; exact Hfuel|].
  destruct (Hres Hopen Hok) as [-> Hself].
  assert (Hsnap : _clip_data (self s1) = [(A, a); (B, b)]).
  { rewrite Hself, Hclip. cbn [_clip_data set_clip_data fold_left].
    unfold capture. cbn [fst snd]. rewrite HsA, HsB, HrA, HrB.
    cbn. now rewrite HAB. }
  exists s1. eexists. split; [exact E|]. split; [exact Hsnap|].
  split; [reflexivity|].
  rewrite _restore_clipboard_open.
  - cbv zeta. split; [reflexivity|]. cbn [os self external_empty with_os].
    rewrite Hsnap.
    match goal with
    | |- os_clip (snd (write_all _ ?o)) = _ =>
        destruct (write_all_whole [(A, a); (B, b)] o) as [_ ->]
    end.
    + intros g [<-|[<-|[]]]; cbn; now rewrite Hos.
    + exact Hnd.
    + reflexivity.
  - cbn [self external_empty with_os]. now rewrite Hsnap.
  - cbn [self external_empty with_os]. rewrite Hsnap.
    now apply nodupb_NoDup.
  - cbn. now rewrite Hos.
Qed.

(** C2: a notification whose sequence number is not above the stored
    cursor: [_process_clip] reads the sequence number, logs twice and
    returns; [self] (snapshot, cursor) and the operating system (the
    clipboard) are what they were, and the trace shows no other call, so
    neither backup nor restore ran.  The same holds for the delivery of
    [WM_CLIPBOARDUPDATE] to the window procedure, which answers [0]. *)
Theorem duplicate_notification_is_discarded
  (fuel : nat) (s : Sys) (hwnd wparam lparam : Z) :
  os_seq (os s) <= _last_clip_seq (self s) ->
  let s' :=
    mkSys (self s) (os s)
          (trace s ++ [Call GetClipboardSequenceNumber_;
                       Log DEBUG (Start_sequence (os_seq (os s))
                                                 (_last_clip_seq (self s)));
                       Log DEBUG (Ignore_processed (os_seq (os s)))]) in
  _process_clip reg fuel s = (Ret tt, s') /\
  _process_message reg fuel hwnd WM_CLIPBOARDUPDATE wparam lparam s = (Ret 0, s').
Proof.
  intros Hle s'. split.
  - now apply _process_clip_duplicate.
  - unfold _process_message. cbn [Z.eqb WM_CLIPBOARDUPDATE Pos.eqb].
    unfold bind at 1. rewrite _process_clip_duplicate by exact Hle. reflexivity.
Qed.


(** C9: an evaluation of a new sequence number that gets the clipboard
    open within its four attempts ends, whether its [try] block returned
    or raised, with the clipboard closed again; its last three trace
    entries are the [CloseClipboard] call, the debug message and a second
    [GetClipboardSequenceNumber] call, and the cursor is the sequence
    number the system has at that point. *)
Theorem access_released_and_cursor_read_afresh (fuel : nat) (s : Sys) :
  _last_clip_seq (self s) < os_seq (os s) ->
  (os_busy (os s) < 4)%nat ->
  wf_clip (os_clip (os s)) = true ->
  (length (os_clip (os s)) < fuel)%nat ->
  exists r s',
    _process_clip reg fuel s = (r, s') /\
    (r = Ret tt \/ exists e, r = Raise e) /\
    os_open (os s') = false /\
    (exists t, trace s' = trace s ++ t ++ [Call CloseClipboard_; Log DEBUG Closed;
                                           Call GetClipboardSequenceNumber_]) /\
    _last_clip_seq (self s') = os_seq (os s').
Proof.
  intros Hlt Hbusy Hwf Hfuel.
  destruct (_process_clip_acquired fuel s Hlt Hbusy Hwf Hfuel)
    as (r & s' & E & Hr & Hopen & Hseq & Ht & _).
  exists r, s'. split; [exact E|].
  split; [|now repeat split].
  destruct r as [[]|e|]; [now left | right; now exists e | now contradiction Hr].
Qed.

Lemma listen_after_evaluation (fuel : nat) (s : Sys) :
  ((_thread_id (self s) >? 0) = false ->
   _trigger_at_start (self s) = true ->
   fst (_process_clip reg fuel s) = Ret tt) ->
  fst (listen reg fuel s) = Ret tt.
Proof.
  intros H. unfold listen, bind at 1, get_self.
  destruct (_thread_id (self s) >? 0); [reflexivity|].
  destruct (_trigger_at_start (self s)).
  - unfold bind at 1.
    destruct (_process_clip reg fuel s) as [r s1].
    cbn in H. rewrite H by reflexivity. reflexivity.
  - reflexivity.
Qed.

(** C4, as the code has it: in an evaluation that gets the clipboard open
    within its four attempts and in which no [EnumClipboardFormats] call
    fails, every refused [OpenClipboard] and every failing
    [GetClipboardData] or [SetClipboardData] is caught inside the
    evaluation: [_process_clip] returns normally, and so does [listen],
    with or without [_trigger_at_start].  [stop] evaluates nothing and
    returns normally when the listener is stopped or its thread exists. *)
Theorem caught_failures_stay_inside_the_evaluation (fuel : nat) (s : Sys) :
  (os_busy (os s) < 4)%nat ->
  enum_ok (os s) = true ->
  wf_clip (os_clip (os s)) = true ->
  (length (os_clip (os s)) < fuel)%nat ->
  fst (_process_clip reg fuel s) = Ret tt /\
  fst (listen reg fuel s) = Ret tt /\
  (_thread_id (self s) <= 0 \/
   thread_queue (os_threads (os s)) (_thread_id (self s)) <> None ->
   fst (stop s) = Ret tt).
Proof.
  intros Hbusy Hok Hwf Hfuel.
  assert (Hclip : fst (_process_clip reg fuel s) = Ret tt).
  { destruct (Z.le_gt_cases (os_seq (os s)) (_last_clip_seq (self s))) as [Hle|Hlt].
    - now rewrite _process_clip_duplicate.
    - destruct (_process_clip_acquired fuel s Hlt Hbusy Hwf Hfuel)
        as (r & s' & E & _ & _ & _ & _ & Hres).
      rewrite E. cbn. now apply Hres. }
  split; [exact Hclip|].
  split; [apply listen_after_evaluation; intros _ _; exact Hclip|].
  intros Hthread. unfold stop, bind at 1, get_self.
  destruct (Z.gtb_spec (_thread_id (self s)) 0) as [Hgt|Hle]; [|reflexivity].
  destruct Hthread as [Hstopped|Hqueue]; [lia|].
  unfold PostThreadMessage, bind, os_call, get_os. cbn.
  destruct (thread_queue (os_threads (os s)) (_thread_id (self s)));
    [reflexivity | now contradiction Hqueue].
Qed.

(** C5, what the code does: an evaluation of a new sequence number whose
    four [OpenClipboard] attempts are all refused logs four errors and goes
    on to its [try] block; [EnumClipboardFormats] fails on the clipboard
    that was never opened, the [CloseClipboard] of the [finally] block
    fails too, and the evaluation ends by raising: it does not return.
    Snapshot, cursor and clipboard are what they were. *)
Theorem unacquired_clipboard_evaluation_raises (fuel : nat) (s : Sys) :
  _last_clip_seq (self s) < os_seq (os s) ->
  (4 <= os_busy (os s))%nat ->
  os_open (os s) = false ->
  exists s',
    _process_clip reg fuel s = (Raise (Error CloseClipboard_), s') /\
    self s' = self s /\
    os_clip (os s') = os_clip (os s) /\
    trace s'
    = trace s ++ [Call GetClipboardSequenceNumber_;
                  Log DEBUG (Start_sequence (os_seq (os s))
                                            (_last_clip_seq (self s)));
                  Call (sleep_ 100);
                  Call (sleep_ 100); Call OpenClipboard_; Log ERROR Open_error;
                  Call (sleep_ 200); Call OpenClipboard_; Log ERROR Open_error;
                  Call (sleep_ 300); Call OpenClipboard_; Log ERROR Open_error;
                  Call (sleep_ 400); Call OpenClipboard_; Log ERROR Open_error;
                  Call (EnumClipboardFormats_ 0);
                  Call CloseClipboard_].
Proof.
  intros Hlt Hbusy Hopen.
  rewrite _process_clip_newer by exact Hlt.
  destruct s as [c [clip seq opened busy eb rb wb ths ls nt] t].
  cbn in Hopen, Hbusy. subst opened.
  destruct busy as [|[|[|[|k]]]]; try lia.
  eexists. split; [reflexivity|]. cbn.
  repeat split. rewrite <- !app_assoc. reflexivity.
Qed.


(** ** The listener *)

Lemma listen_eq (fuel : nat) (s : Sys) :
  listen reg fuel s
  = if _thread_id (self s) >? 0
    then (Ret tt, emit (Log INFO Listener_already_running) s)
    else if _trigger_at_start (self s)
         then match _process_clip reg fuel s with
              | (Ret _, s1) => (Ret tt, listening s1)
              | (Raise e, s1) => (Raise e, s1)
              | (Diverge, s1) => (Diverge, s1)
              end
         else (Ret tt, listening s).
Proof.
  assert (Hstart : forall s1,
             (tid <- Thread_start ;; runner_enter tid) s1 = (Ret tt, listening s1)).
  { intros s1. unfold Thread_start, runner_enter, AddClipboardFormatListener,
      bind, get_os, get_self, os_call, put_os, modify_self, logging_info,
      logging, ret, listening, emit, with_os, with_self.
    cbn. rewrite <- !app_assoc. reflexivity. }
  unfold listen, bind at 1, get_self.
  destruct (_thread_id (self s) >? 0); [reflexivity|].
  destruct (_trigger_at_start (self s)).
  - unfold bind at 1. destruct (_process_clip reg fuel s) as [[[]| |] s1];
      [apply Hstart | reflexivity | reflexivity].
  - unfold bind at 1. cbn [ret]. apply Hstart.
Qed.

Lemma stop_eq (s : Sys) :
  stop s
  = if _thread_id (self s) >? 0
    then match thread_queue (os_threads (os s)) (_thread_id (self s)) with
         | Some q =>
             (Ret tt,
              mkSys (self s)
                    (set_os_threads
                       (put_queue (os_threads (os s)) (_thread_id (self s))
                                  (q ++ [WM_QUIT]))
                       (os_next_tid (os s)) (os s))
                    (trace s ++ [Call (PostThreadMessage_ (_thread_id (self s)) WM_QUIT)]))
         | None =>
             (Raise (Error (PostThreadMessage_ (_thread_id (self s)) WM_QUIT)),
              emit (Call (PostThreadMessage_ (_thread_id (self s)) WM_QUIT)) s)
         end
    else (Ret tt, s).
Proof.
  unfold stop, bind at 1, get_self.
  destruct (_thread_id (self s) >? 0); [|reflexivity].
  unfold PostThreadMessage, bind, os_call, get_os. cbn.
  destruct (thread_queue (os_threads (os s)) (_thread_id (self s))); reflexivity.
Qed.

Lemma pump_eq (tid : Z) (s : Sys) :
  pump tid s
  = match thread_queue (os_threads (os s)) tid with
    | Some (m :: q) =>
        if m =? WM_QUIT
        then (Ret tt,
              mkSys (set_thread_id 0 (self s))
                    (set_os_listeners
                       (remove_first (_hwnd (self s)) (os_listeners (os s)))
                       (set_os_threads (remove_thread (os_threads (os s)) tid)
                                       (os_next_tid (os s)) (os s)))
                    (trace s ++ [Call (RemoveClipboardFormatListener_ (_hwnd (self s)));
                                 Log INFO Listener_stopped]))
        else (Ret tt,
              with_os (set_os_threads (put_queue (os_threads (os s)) tid q)
                                      (os_next_tid (os s)) (os s)) s)
    | _ => (Ret tt, s)
    end.
Proof.
  unfold pump, bind at 1, get_os.
  destruct (thread_queue (os_threads (os s)) tid) as [[|m q]|]; try reflexivity.
  destruct (m =? WM_QUIT); [|reflexivity].
  unfold runner_leave, RemoveClipboardFormatListener, bind, get_os, get_self,
    os_call, put_os, modify_self, logging_info, logging, ret, emit, with_os,
    with_self.
  cbn. rewrite <- !app_assoc. reflexivity.
Qed.

Lemma listener_state_frame (s s' : Sys) :
  frame s s' -> listener_state s' = listener_state s.
Proof. intros (_ & Htid & _). unfold listener_state. now rewrite Htid. Qed.

Lemma _process_message_frame (fuel : nat) (hwnd msg wparam lparam : Z)
      (s : Sys) (r : res Z) (s' : Sys) :
  _process_message reg fuel hwnd msg wparam lparam s = (r, s') -> frame s s'.
Proof.
  unfold _process_message. unfold bind at 1.
  destruct (msg =? WM_CLIPBOARDUPDATE).
  - destruct (_process_clip reg fuel s) as [r1 s1] eqn:E1.
    apply _process_clip_frame in E1.
    destruct r1; intros E; inversion E; subst; exact E1.
  - cbn. intros E. inversion E; subst. apply frame_refl.
Qed.

Lemma count_put_queue (p : Z -> bool) (ts : list (Z * list Z))
      (tid m : Z) (q : list Z) :
  thread_queue ts tid = Some (m :: q) ->
  (length (filter p (concat (map snd (put_queue ts tid q))))
   <= length (filter p (concat (map snd ts))))%nat.
Proof.
  induction ts as [|[t q'] ts IH]; cbn; [discriminate|].
  destruct (t =? tid).
  - intros E. inversion E; subst q'. cbn.
    rewrite !filter_app, !length_app.
    destruct (p m); cbn; rewrite ?length_app; lia.
  - intros E. cbn. rewrite !filter_app, !length_app.
    specialize (IH E). lia.
Qed.

Lemma count_remove_thread (p : Z -> bool) (ts : list (Z * list Z)) (tid : Z) :
  (length (filter p (concat (map snd (remove_thread ts tid))))
   <= length (filter p (concat (map snd ts))))%nat.
Proof.
  unfold remove_thread.
  induction ts as [|[t q'] ts IH]; cbn; [lia|].
  destruct (t =? tid); cbn; rewrite ?filter_app, ?length_app; lia.
Qed.


Lemma one_listener_frame (s s' : Sys) :
  frame s s' -> one_listener s -> one_listener s'.
Proof.
  intros (_ & Htid & _ & _ & _ & _ & Hths & _). unfold one_listener.
  now rewrite Htid, Hths.
Qed.

Lemma pending_quits_frame (s s' : Sys) :
  frame s s' -> pending_quits (os s') = pending_quits (os s).
Proof.
  intros (_ & _ & _ & _ & _ & _ & Hths & _). unfold pending_quits.
  now rewrite Hths.
Qed.

Lemma pending_quits_listening (s : Sys) :
  pending_quits (os (listening s)) = pending_quits (os s).
Proof.
  unfold pending_quits, listening. cbn [os os_threads set_os_listeners set_os_threads].
  rewrite map_app, concat_app. cbn [map snd concat]. now rewrite !app_nil_r.
Qed.

Lemma listener_state_running (s : Sys) :
  listener_state s = Running <-> 0 < _thread_id (self s).
Proof.
  unfold listener_state.
  destruct (Z.gtb_spec (_thread_id (self s)) 0); split; intros; try lia;
    try reflexivity; discriminate.
Qed.

Lemma listener_state_stopped (s : Sys) :
  listener_state s = Stopped <-> _thread_id (self s) <= 0.
Proof.
  unfold listener_state.
  destruct (Z.gtb_spec (_thread_id (self s)) 0); split; intros; try lia;
    try reflexivity; discriminate.
Qed.

(** Every action, whatever its outcome, keeps "at most one listening
    thread, named by [_thread_id]". *)
Lemma perform_one_listener (fuel : nat) (a : action) (s : Sys)
      (r : res unit) (s' : Sys) :
  perform reg fuel a s = (r, s') -> one_listener s -> one_listener s'.
Proof.
  destruct a as [| |msg|tid]; cbn [perform].
  - rewrite listen_eq.
    destruct (Z.gtb_spec (_thread_id (self s)) 0) as [Hgt|Hle].
    { intros E Hone. inversion E; subst. exact Hone. }
    assert (Hstart : forall s1, frame s s1 -> one_listener s ->
                                one_listener (listening s1)).
    { intros s1 Hf [[_ Hths]|[Hpos _]]; [|lia].
      right. destruct Hf as (_ & _ & _ & _ & _ & _ & Hths1 & _).
      unfold listening. cbn. rewrite Hths1, Hths. split; [lia|].
      now exists []. }
    destruct (_trigger_at_start (self s)).
    + destruct (_process_clip reg fuel s) as [r1 s1] eqn:E1.
      apply _process_clip_frame in E1.
      destruct r1; intros E Hone; inversion E; subst;
        [now apply Hstart | now apply (one_listener_frame s) ..].
    + intros E Hone. inversion E; subst. apply Hstart; [apply frame_refl|exact Hone].
  - rewrite stop_eq.
    destruct (Z.gtb_spec (_thread_id (self s)) 0) as [Hgt|Hle].
    + destruct (thread_queue (os_threads (os s)) (_thread_id (self s))) as [q|] eqn:Hq;
        intros E Hone; inversion E; subst; [|exact Hone].
      destruct Hone as [[H0 _]|[_ [q0 Hths]]]; [lia|].
      right. cbn. split; [lia|]. rewrite Hths. cbn. rewrite Z.eqb_refl.
      now eexists.
    + intros E Hone. inversion E; subst. exact Hone.
  - unfold bind at 1, get_self. unfold bind at 1.
    destruct (_process_message reg fuel _ msg 0 0 s) as [r1 s1] eqn:E1.
    apply _process_message_frame in E1.
    destruct r1; intros E Hone; inversion E; subst;
      now apply (one_listener_frame s).
  - rewrite pump_eq.
    destruct (thread_queue (os_threads (os s)) tid) as [[|m q]|] eqn:Hq;
      try (intros E Hone; inversion E; subst; exact Hone).
    intros E Hone.
    destruct Hone as [[_ Hths]|[Hpos [q0 Hths]]];
      [rewrite Hths in Hq; discriminate|].
    rewrite Hths in Hq. cbn in Hq.
    destruct (Z.eqb_spec (_thread_id (self s)) tid) as [Htid|Hne]; [|discriminate].
    destruct (m =? WM_QUIT); inversion E; subst.
    + left. cbn. rewrite Hths. unfold remove_thread. cbn.
      rewrite Z.eqb_refl. now split.
    + right. cbn. split; [exact Hpos|]. rewrite Hths. cbn. rewrite Z.eqb_refl.
      now eexists.
Qed.


(** So no reachable state has a second listening thread. *)
Lemma reachable_one_listener (fuel : nat) (s : Sys) :
  reachable reg fuel s -> one_listener s.
Proof.
  induction 1 as [trigger hwnd o Hths|a s r s' _ IH E|s o _ IH Hths].
  - left. now split.
  - now apply (perform_one_listener fuel a s r s').
  - unfold one_listener in *. cbn. now rewrite Hths.
Qed.



(** The only action that starts the listener is [listen], the only one
    that ends it is the message loop taking a [WM_QUIT], and only [stop]
    puts a [WM_QUIT] into a queue. *)
Lemma perform_transitions (fuel : nat) (a : action) (s : Sys)
      (r : res unit) (s' : Sys) :
  perform reg fuel a s = (r, s') ->
  (listener_state s = Stopped -> listener_state s' = Running -> a = Do_listen) /\
  (listener_state s = Running -> listener_state s' = Stopped ->
   exists tid q,
     a = Do_pump tid /\
     thread_queue (os_threads (os s)) tid = Some (WM_QUIT :: q)) /\
  (a <> Do_stop -> (pending_quits (os s') <= pending_quits (os s))%nat).
Proof.
  assert (Hsame : forall s1,
             listener_state s1 = listener_state s ->
             (listener_state s = Stopped -> listener_state s1 = Running ->
              a = Do_listen) /\
             (listener_state s = Running -> listener_state s1 = Stopped ->
              exists tid q,
                a = Do_pump tid /\
                thread_queue (os_threads (os s)) tid = Some (WM_QUIT :: q))).
  { intros s1 ->. split; intros H1 H2; rewrite H1 in H2; discriminate. }
  destruct a as [| |msg|tid]; cbn [perform].
  - rewrite listen_eq.
    destruct (Z.gtb_spec (_thread_id (self s)) 0) as [Hgt|Hle].
    { intros E. inversion E; subst.
      destruct (Hsame (emit (Log INFO Listener_already_running) s) eq_refl).
      repeat split; try assumption. intros _. apply Nat.le_refl. }
    apply listener_state_stopped in Hle.
    assert (Hgoal : forall s1, frame s s1 ->
              (listener_state s = Stopped -> listener_state s1 = Running ->
               Do_listen = Do_listen) /\
              (listener_state s = Running -> listener_state s1 = Stopped ->
               exists tid q,
                 Do_listen = Do_pump tid /\
                 thread_queue (os_threads (os s)) tid = Some (WM_QUIT :: q)) /\
              (Do_listen <> Do_stop ->
               (pending_quits (os s1) <= pending_quits (os s))%nat) /\
              (pending_quits (os (listening s1)) <= pending_quits (os s))%nat).
    { intros s1 Hf. split; [reflexivity|].
      split; [intros H; rewrite Hle in H; discriminate|].
      rewrite pending_quits_listening, (pending_quits_frame _ _ Hf).
      split; intros; apply Nat.le_refl. }
    destruct (_trigger_at_start (self s)).
    + destruct (_process_clip reg fuel s) as [r1 s1] eqn:E1.
      apply _process_clip_frame in E1. destruct (Hgoal s1 E1) as (G1 & G2 & G3 & G4).
      destruct r1; intros E; inversion E; subst.
      * split; [reflexivity|]. split; [intros H; rewrite Hle in H; discriminate|].
        intros _. exact G4.
      * repeat split; assumption.
      * repeat split; assumption.
    + intros E. inversion E; subst.
      destruct (Hgoal s (frame_refl s)) as (G1 & G2 & G3 & G4).
      split; [reflexivity|]. split; [intros H; rewrite Hle in H; discriminate|].
      intros _. exact G4.
  - intros E. split; [|split; [|intros H; now contradiction H]].
    all: revert E; rewrite stop_eq.
    all: destruct (_thread_id (self s) >? 0);
      [destruct (thread_queue (os_threads (os s)) (_thread_id (self s)))|].
    all: intros E; inversion E; subst; now apply Hsame.
  - unfold bind at 1, get_self. unfold bind at 1.
    destruct (_process_message reg fuel _ msg 0 0 s) as [r1 s1] eqn:E1.
    apply _process_message_frame in E1.
    assert (Hs1 : listener_state s1 = listener_state s)
      by now apply listener_state_frame.
    destruct (Hsame s1 Hs1) as [G1 G2].
    pose proof (pending_quits_frame _ _ E1) as Hq.
    destruct r1; intros E; inversion E; subst;
      (split; [exact G1 | split; [exact G2 | intros _; rewrite Hq; apply Nat.le_refl]]).
  - rewrite pump_eq.
    destruct (thread_queue (os_threads (os s)) tid) as [[|m q]|] eqn:Hq;
      try (intros E; inversion E; subst;
           destruct (Hsame s' eq_refl);
           repeat split; try assumption; intros _; apply Nat.le_refl).
    destruct (Z.eqb_spec m WM_QUIT) as [->|Hne]; intros E; inversion E; subst.
    + split; [intros _ H; discriminate|].
      split; [intros _ _; now exists tid, q|].
      intros _. unfold pending_quits. cbn. apply count_remove_thread.
    + match goal with
      | |- context [listener_state ?s1] =>
          destruct (Hsame s1 eq_refl) as [G1 G2]
      end.
      split; [exact G1|]. split; [exact G2|].
      intros _. unfold pending_quits. cbn. now apply (count_put_queue _ _ _ m).
Qed.

(** C8: [listen] while the listener is running only logs: no thread is
    started and [self] and the operating system stay as they are; [stop]
    while it is stopped changes nothing at all.  Among all actions, the
    listener goes from stopped to running only by [listen], and from
    running to stopped only when its message loop takes a [WM_QUIT], a
    message that only [stop] posts; at most one listening thread exists
    throughout.  [listen] on a stopped listener starts it, and [stop] on a
    running one followed by the message loop taking the message stops it. *)
Theorem listener_has_two_states_and_two_transitions (fuel : nat) (s : Sys) :
  (0 < _thread_id (self s) ->
   listen reg fuel s = (Ret tt, emit (Log INFO Listener_already_running) s)) /\
  (_thread_id (self s) <= 0 -> stop s = (Ret tt, s)) /\
  (forall a r s',
     perform reg fuel a s = (r, s') ->
     (listener_state s = Stopped -> listener_state s' = Running ->
      a = Do_listen) /\
     (listener_state s = Running -> listener_state s' = Stopped ->
      exists tid q,
        a = Do_pump tid /\
        thread_queue (os_threads (os s)) tid = Some (WM_QUIT :: q)) /\
     (a <> Do_stop -> (pending_quits (os s') <= pending_quits (os s))%nat) /\
     (one_listener s -> one_listener s')) /\
  (listener_state s = Stopped -> _trigger_at_start (self s) = false ->
   listen reg fuel s = (Ret tt, listening s) /\
   listener_state (listening s) = Running) /\
  (listener_state s = Running ->
   os_threads (os s) = [(_thread_id (self s), [])] ->
   exists s1 s2,
     stop s = (Ret tt, s1) /\ listener_state s1 = Running /\
     pump (_thread_id (self s)) s1 = (Ret tt, s2) /\
     listener_state s2 = Stopped /\ os_threads (os s2) = []).
Proof.
  split; [|split; [|split; [|split]]].
  - intros Hgt. rewrite listen_eq.
    destruct (Z.gtb_spec (_thread_id (self s)) 0); [reflexivity | lia].
  - intros Hle. rewrite stop_eq.
    destruct (Z.gtb_spec (_thread_id (self s)) 0); [lia | reflexivity].
  - intros a r s' E.
    destruct (perform_transitions fuel a s r s' E) as (G1 & G2 & G3).
    repeat split; try assumption.
    now apply (perform_one_listener fuel a s r s').
  - intros Hstopped Htrigger. apply listener_state_stopped in Hstopped.
    rewrite listen_eq, Htrigger.
    destruct (Z.gtb_spec (_thread_id (self s)) 0); [lia|].
    split; [reflexivity|]. apply listener_state_running. cbn. lia.
  - intros Hrunning Hths. pose proof Hrunning as Hgt.
    apply listener_state_running in Hgt.
    rewrite stop_eq, Hths.
    destruct (Z.gtb_spec (_thread_id (self s)) 0); [|lia].
    cbn [thread_queue]. rewrite Z.eqb_refl.
    eexists _, _. split; [reflexivity|].
    split; [exact Hrunning|].
    rewrite pump_eq. unfold remove_thread.
    cbn. rewrite !Z.eqb_refl. cbn. rewrite !Z.eqb_refl. cbn.
    split; [reflexivity|]. split; reflexivity.
Qed.

End Properties.

(** ** The claims on sample inputs *)

(** Text on the clipboard is backed up by one evaluation, lost when another
    process empties the clipboard, and put back by the next evaluation. *)
Example hello_is_restored :
  let s0 := sample_sys false [] 0
              (sample_os [(CF_UNICODETEXT, hello)] 1 false 0 [] [] []) in
  let s1 := snd (_process_clip sample_register 2 s0) in
  let s2 := snd (_process_clip sample_register 2 (external_empty s1)) in
  _clip_data (self s1) = [(CF_UNICODETEXT, hello)] /\
  os_clip (os (external_empty s1)) = [] /\
  os_clip (os s2) = [(CF_UNICODETEXT, hello)].
Proof. vm_compute. repeat split. Qed.

(** After a restore the cursor is not the number read when the evaluation
    began: emptying and writing moved the system's number on. *)
Example cursor_after_restore :
  let s := sample_sys false [(CF_UNICODETEXT, hello)] 1
             (sample_os [] 2 false 0 [] [] []) in
  let s' := snd (_process_clip sample_register 1 s) in
  os_seq (os s) = 2 /\ os_seq (os s') = 4 /\ _last_clip_seq (self s') = 4.
Proof. vm_compute. repeat split. Qed.

Lemma backup_empty_restore_roundtrip_witness :
  let s := sample_sys false [] 0
             (sample_os [(CF_UNICODETEXT, hello); (CF_TEXT, hello)] 1 true 0 [] [] []) in
  exists s1 s2,
    _backup_clipboard sample_register 3 s = (Ret tt, s1) /\
    _clip_data (self s1) = [(CF_UNICODETEXT, hello); (CF_TEXT, hello)] /\
    os_clip (os (external_empty s1)) = [] /\
    _restore_clipboard (external_empty s1) = (Ret tt, s2) /\
    os_clip (os s2) = [(CF_UNICODETEXT, hello); (CF_TEXT, hello)].
Proof.
  intros s.
  apply (backup_empty_restore_roundtrip sample_register 3 s
           CF_UNICODETEXT CF_TEXT hello hello);
    try reflexivity; try discriminate; lia.
Defined.

Lemma duplicate_notification_is_discarded_witness :
  let s := sample_sys false [(CF_UNICODETEXT, hello)] 5
             (sample_os text_clip 5 false 0 [] [] []) in
  _process_clip sample_register 4 s
  = (Ret tt,
     mkSys (self s) (os s)
           [Call GetClipboardSequenceNumber_; Log DEBUG (Start_sequence 5 5);
            Log DEBUG (Ignore_processed 5)]) /\
  _process_message sample_register 4 77 WM_CLIPBOARDUPDATE 0 0 s
  = (Ret 0,
     mkSys (self s) (os s)
           [Call GetClipboardSequenceNumber_; Log DEBUG (Start_sequence 5 5);
            Log DEBUG (Ignore_processed 5)]).
Proof.
  intros s.
  apply (duplicate_notification_is_discarded sample_register 4 s 77 0 0).
  vm_compute. discriminate.
Defined.

Lemma backup_captures_supported_formats_witness :
  let s := sample_sys false [] 0 (sample_os text_clip 1 true 0 [] [] []) in
  exists s',
    _backup_clipboard sample_register 4 s = (Ret tt, s') /\
    keys (_clip_data (self s')) = [CF_UNICODETEXT; CF_TEXT].
Proof.
  intros s.
  destruct (backup_captures_supported_formats sample_register 4 s) as [H _].
  apply H; try reflexivity. vm_compute. lia.
Defined.

Lemma caught_failures_stay_inside_the_evaluation_witness :
  let s := sample_sys true [] 0
             (sample_os text_clip 1 false 3 [] [CF_UNICODETEXT] [CF_TEXT]) in
  fst (_process_clip sample_register 4 s) = Ret tt /\
  fst (listen sample_register 4 s) = Ret tt /\
  fst (stop s) = Ret tt.
Proof.
  intros s.
  destruct (caught_failures_stay_inside_the_evaluation sample_register 4 s)
    as (H1 & H2 & H3); try reflexivity; try (vm_compute; lia).
  split; [exact H1|]. split; [exact H2|].
  apply H3. left. vm_compute. discriminate.
Defined.

(** C4 as stated fails: an [EnumClipboardFormats] failure on a clipboard
    that was opened at the first attempt is raised inside the evaluation,
    leaves [_process_clip] and, with [_trigger_at_start], reaches the
    caller of [listen]. *)
Lemma enumeration_failure_reaches_the_caller_of_listen :
  let s := sample_sys true [] 0
             (sample_os text_clip 1 false 0 [CF_UNICODETEXT] [] []) in
  fst (_process_clip sample_register 4 s)
  = Raise (Error (EnumClipboardFormats_ CF_UNICODETEXT)) /\
  fst (listen sample_register 4 s)
  = Raise (Error (EnumClipboardFormats_ CF_UNICODETEXT)) /\
  listener_state (snd (listen sample_register 4 s)) = Stopped.
Proof. vm_compute. repeat split. Qed.

Lemma unacquired_clipboard_evaluation_raises_witness :
  let s := sample_sys false [] 0
             (sample_os [(CF_UNICODETEXT, hello)] 1 false 4 [] [] []) in
  exists s',
    _process_clip sample_register 2 s = (Raise (Error CloseClipboard_), s') /\
    self s' = self s /\
    os_clip (os s') = os_clip (os s) /\
    trace s'
    = [Call GetClipboardSequenceNumber_; Log DEBUG (Start_sequence 1 0);
       Call (sleep_ 100);
       Call (sleep_ 100); Call OpenClipboard_; Log ERROR Open_error;
       Call (sleep_ 200); Call OpenClipboard_; Log ERROR Open_error;
       Call (sleep_ 300); Call OpenClipboard_; Log ERROR Open_error;
       Call (sleep_ 400); Call OpenClipboard_; Log ERROR Open_error;
       Call (EnumClipboardFormats_ 0);
       Call CloseClipboard_].
Proof.
  intros s.
  apply (unacquired_clipboard_evaluation_raises sample_register 2 s);
    [reflexivity | vm_compute; lia | reflexivity].
Defined.

Lemma restore_stops_at_first_failed_write_witness :
  let s := sample_sys false
             [(CF_UNICODETEXT, hello); (CF_TEXT, hello); (CF_OEMTEXT, hello)] 1
             (sample_os [] 2 true 0 [] [] [CF_TEXT]) in
  exists s' t,
    _restore_clipboard s = (Ret tt, s') /\
    self s' = self s /\
    os_clip (os s') = [(CF_UNICODETEXT, hello)] /\
    trace s' = trace s ++ [Log DEBUG Restore_starts; Call EmptyClipboard_]
                       ++ t
                       ++ [Call (SetClipboardData_ CF_TEXT hello);
                           Log ERROR (Restore_write_error CF_TEXT (len hello))] /\
    writes_of t = [(CF_UNICODETEXT, hello)].
Proof.
  intros s.
  apply (restore_stops_at_first_failed_write s
           [(CF_UNICODETEXT, hello)] [(CF_OEMTEXT, hello)] CF_TEXT hello);
    try reflexivity.
  intros g [<-|[]]. reflexivity.
Defined.

Lemma restore_empty_snapshot_is_noop_witness :
  let s := sample_sys false [] 1 (sample_os [] 2 true 0 [] [] []) in
  _restore_clipboard s
  = (Ret tt, mkSys (self s) (os s) [Log DEBUG (Nothing_to_restore 1)]).
Proof.
  intros s. apply (restore_empty_snapshot_is_noop s). reflexivity.
Defined.

Lemma listener_has_two_states_and_two_transitions_witness :
  let s := sample_sys false [] 0 (sample_os text_clip 1 false 0 [] [] []) in
  let s1 := listening s in
  stop s = (Ret tt, s) /\
  listen sample_register 4 s = (Ret tt, s1) /\
  listener_state s1 = Running /\
  listen sample_register 4 s1
  = (Ret tt, emit (Log INFO Listener_already_running) s1) /\
  exists s2 s3,
    stop s1 = (Ret tt, s2) /\ listener_state s2 = Running /\
    pump (_thread_id (self s1)) s2 = (Ret tt, s3) /\
    listener_state s3 = Stopped /\ os_threads (os s3) = [].
Proof.
  intros s s1.
  destruct (listener_has_two_states_and_two_transitions sample_register 4 s)
    as (_ & Hstop & _ & Hstart & _).
  destruct (listener_has_two_states_and_two_transitions sample_register 4 s1)
    as (Hagain & _ & _ & _ & Hquit).
  split; [apply Hstop; vm_compute; discriminate|].
  destruct Hstart as [H1 H2]; [reflexivity | reflexivity |].
  split; [exact H1|]. split; [exact H2|].
  split; [apply Hagain; reflexivity|].
  apply Hquit; reflexivity.
Defined.

Lemma access_released_and_cursor_read_afresh_witness :
  let s := sample_sys false [] 0
             (sample_os text_clip 1 false 2 [CF_UNICODETEXT] [] []) in
  exists r s',
    _process_clip sample_register 4 s = (r, s') /\
    (r = Ret tt \/ exists e, r = Raise e) /\
    os_open (os s') = false /\
    (exists t, trace s' = trace s ++ t ++ [Call CloseClipboard_; Log DEBUG Closed;
                                           Call GetClipboardSequenceNumber_]) /\
    _last_clip_seq (self s') = os_seq (os s').
Proof.
  intros s.
  apply (access_released_and_cursor_read_afresh sample_register 4 s);
    try reflexivity; vm_compute; lia.
Defined.

(** The evaluation of the witness above is one whose [try] block raises. *)
Example release_after_failed_enumeration :
  let s := sample_sys false [] 0
             (sample_os text_clip 1 false 2 [CF_UNICODETEXT] [] []) in
  let rs := _process_clip sample_register 4 s in
  fst rs = Raise (Error (EnumClipboardFormats_ CF_UNICODETEXT)) /\
  os_open (os (snd rs)) = false /\
  _last_clip_seq (self (snd rs)) = 1.
Proof. vm_compute. repeat split. Qed.

Lemma restore_empties_first_and_keeps_snapshot_witness :
  let s := sample_sys false [(CF_UNICODETEXT, hello); (CF_TEXT, hello)] 1
             (sample_os [] 2 true 0 [] [] [CF_UNICODETEXT]) in
  let rs := _restore_clipboard s in
  _clip_data (self (snd rs)) = _clip_data (self s) /\
  fst rs = Ret tt /\
  os_clip (os (snd rs)) = [] /\
  trace (snd rs)
  = [Log DEBUG Restore_starts; Call EmptyClipboard_;
     Call (SetClipboardData_ CF_UNICODETEXT hello);
     Log ERROR (Restore_write_error CF_UNICODETEXT (len hello))].
Proof.
  intros s rs.
  destruct (restore_empties_first_and_keeps_snapshot s (fst rs) (snd rs))
    as [Hkeep Hfirst]; [reflexivity|].
  destruct (Hfirst CF_UNICODETEXT hello [(CF_TEXT, hello)] eq_refl)
    as [_ Hfail].
  destruct Hfail as (Hr & Hclip & Htrace); [reflexivity | reflexivity |].
  split; [exact Hkeep|]. split; [exact Hr|]. split; [exact Hclip|].
  exact Htrace.
Defined.

(** ** Further properties of backup and restore *)

Section Further.

(** The format numbers the running system gives to named formats. *)
Variable reg : string -> format.

Lemma capture_filter (o : OS) (entries : dict) :
  forall data : dict,
    NoDup (keys data ++ keys entries) ->
    fold_left (capture reg o) entries data
    = data ++ filter (fun e => mem (fst e) (SUPPORTED_CF reg)
                               && negb (mem (fst e) (os_read_bad o)))
                     entries.
Proof.
  induction entries as [|[f d] entries IH]; intros data Hnd.
  - cbn. now rewrite app_nil_r.
  - cbn [fold_left filter fst snd]. unfold capture at 2. cbn [fst snd].
    cbn [keys map fst] in Hnd.
    destruct (mem f (SUPPORTED_CF reg) && negb (mem f (os_read_bad o))).
    + assert (Hf : ~ In f (keys data)).
      { apply NoDup_remove_2 in Hnd. rewrite in_app_iff in Hnd. tauto. }
      rewrite IH.
      * rewrite dict_set_notin by exact Hf. now rewrite <- app_assoc.
      * rewrite dict_set_notin, keys_app by exact Hf.
        cbn [keys map fst]. now rewrite <- app_assoc.
    + apply IH. now apply NoDup_remove_1 in Hnd.
Qed.

Lemma writes_of_app (t1 t2 : list event) :
  writes_of (t1 ++ t2) = writes_of t1 ++ writes_of t2.
Proof.
  induction t1 as [|[c|l m] t1 IH]; cbn; [reflexivity| |exact IH].
  destruct c; cbn; rewrite ?IH; reflexivity.
Qed.

Lemma wf_clip_NoDup (clip : dict) : wf_clip clip = true -> NoDup (keys clip).
Proof.
  unfold wf_clip. rewrite andb_true_iff. intros [_ H]. now apply nodupb_NoDup.
Qed.

(** A backup pass on an open clipboard whose enumeration works. *)
Lemma _backup_clipboard_captured (fuel : nat) (s : Sys) :
  os_open (os s) = true ->
  wf_clip (os_clip (os s)) = true ->
  enum_ok (os s) = true ->
  (length (os_clip (os s)) < fuel)%nat ->
  exists s',
    _backup_clipboard reg fuel s = (Ret tt, s') /\
    self s' = set_clip_data (captured reg (os s)) (self s) /\
    os s' = os s /\
    exists t, trace s' = trace s ++ t.
Proof.
  intros Hopen Hwf Hok Hfuel.
  destruct (_backup_clipboard_spec reg fuel s Hwf Hfuel)
    as (r & s' & E & _ & Hos & Ht & _ & Hres).
  destruct (Hres Hopen Hok) as [-> Hself].
  exists s'. split; [exact E|]. split; [|split; assumption].
  rewrite Hself, capture_filter; [reflexivity|].
  cbn. now apply wf_clip_NoDup.
Qed.

(** X1: a backup pass on an open, well-formed clipboard whose enumeration
    works returns normally whichever reads fail, and the snapshot it
    leaves is exactly the list of clipboard entries, payloads included and
    in enumeration order, whose format is supported and could be read.
    Nothing of the previous snapshot survives, no other field of [self]
    changes, and the operating system is as before. *)
Theorem backup_replaces_snapshot_by_readable_supported_entries
  (fuel : nat) (s : Sys) :
  os_open (os s) = true ->
  wf_clip (os_clip (os s)) = true ->
  enum_ok (os s) = true ->
  (length (os_clip (os s)) < fuel)%nat ->
  exists s',
    _backup_clipboard reg fuel s = (Ret tt, s') /\
    _clip_data (self s') = captured reg (os s) /\
    self s' = set_clip_data (_clip_data (self s')) (self s) /\
    os s' = os s.
Proof.
  intros Hopen Hwf Hok Hfuel.
  destruct (_backup_clipboard_captured fuel s Hopen Hwf Hok Hfuel)
    as (s' & E & Hself & Hos & _).
  exists s'. split; [exact E|]. rewrite Hself. cbn. repeat split. exact Hos.
Qed.

(** X2: whatever the fuel, the state of the clipboard and the failures on
    the way, a backup pass never changes the operating system (clipboard
    contents, sequence number, open state), and it is all or nothing for
    [self]: a pass that does not return normally leaves [self] exactly as
    it was, and one that returns changes the snapshot only. *)
Theorem backup_is_all_or_nothing
  (fuel : nat) (s : Sys) (r : res unit) (s' : Sys) :
  _backup_clipboard reg fuel s = (r, s') ->
  os s' = os s /\
  (r <> Ret tt -> self s' = self s) /\
  _trigger_at_start (self s') = _trigger_at_start (self s) /\
  _last_clip_seq (self s') = _last_clip_seq (self s) /\
  _thread_id (self s') = _thread_id (self s) /\
  _hwnd (self s') = _hwnd (self s).
Proof.
  intros E. apply _backup_clipboard_inv in E.
  destruct E as (Hos & (Ht & Htid & Hh & _) & Hseq & Hkeep & _).
  repeat split; assumption.
Qed.


Lemma write_all_seq (entries : dict) :
  forall o : OS,
    (forall g, In g (keys entries) -> mem g (os_write_bad o) = false) ->
    os_seq (snd (write_all entries o)) = os_seq o + Z.of_nat (length entries).
Proof.
  induction entries as [|[g e] entries IH]; intros o Hok.
  - cbn. lia.
  - cbn [write_all]. rewrite (Hok g) by now left.
    rewrite IH by (intros h Hh; cbn; apply Hok; now right).
    cbn [os_seq set_os_clip length]. lia.
Qed.

Lemma write_all_frame_open (entries : dict) :
  forall o : OS, os_open (snd (write_all entries o)) = os_open o.
Proof.
  induction entries as [|[g e] entries IH]; intros o; cbn; [reflexivity|].
  destruct (mem g (os_write_bad o)); [reflexivity|].
  now rewrite IH.
Qed.

Lemma restore_trace_writes (bad : list format) (entries : dict) :
  (forall g, In g (keys entries) -> mem g bad = false) ->
  writes_of (restore_trace bad entries) = entries.
Proof.
  induction entries as [|[g e] entries IH]; intros Hok; [reflexivity|].
  cbn [restore_trace]. rewrite (Hok g) by now left.
  cbn. rewrite IH; [reflexivity|]. intros h Hh. apply Hok. now right.
Qed.

(** X3: restoring a non-empty snapshot on an open clipboard whose writes
    all succeed returns normally; whatever the clipboard held, it now
    holds exactly the snapshot, in the order of the snapshot; the sequence
    number has moved by one for the emptying and one for each entry; the
    calls are [EmptyClipboard], then one write per entry in order, and
    the last trace entry is the info message with the number of entries. *)
Theorem restore_puts_whole_snapshot_on_clipboard (s : Sys) :
  _clip_data (self s) <> [] ->
  nodupb (keys (_clip_data (self s))) = true ->
  os_open (os s) = true ->
  (forall g, In g (keys (_clip_data (self s))) ->
             mem g (os_write_bad (os s)) = false) ->
  exists s' t,
    _restore_clipboard s = (Ret tt, s') /\
    self s' = self s /\
    os_clip (os s') = _clip_data (self s) /\
    os_seq (os s') = os_seq (os s) + 1 + Z.of_nat (length (_clip_data (self s))) /\
    trace s' = trace s ++ [Log DEBUG Restore_starts; Call EmptyClipboard_]
                       ++ t
                       ++ [Log INFO (Restored (Z.of_nat (length (_clip_data (self s)))))] /\
    writes_of t = _clip_data (self s).
Proof.
  intros Hne Hnd Hopen Hok.
  rewrite _restore_clipboard_open by assumption. cbv zeta.
  destruct (write_all_whole (_clip_data (self s))
                            (set_os_clip [] (os_seq (os s) + 1) (os s)))
    as [Hfst Hclip].
  { exact Hok. }
  { cbn. now apply nodupb_NoDup. }
  rewrite Hfst.
  eexists _, _. split; [reflexivity|]. cbn [self os trace].
  split; [reflexivity|]. split; [exact Hclip|].
  split; [rewrite write_all_seq by exact Hok; reflexivity|].
  split; [reflexivity|]. now apply restore_trace_writes.
Qed.

Lemma captured_nil (o : OS) :
  (forall f, In f (keys (os_clip o)) -> mem f (SUPPORTED_CF reg) = false) ->
  captured reg o = [].
Proof.
  unfold captured. induction (os_clip o) as [|[f d] clip IH]; intros H;
    [reflexivity|].
  cbn [filter fst]. rewrite (H f) by now left. cbn [andb].
  apply IH. intros g Hg. apply H. now right.
Qed.

(** X4: when none of the formats on the clipboard is supported, a backup
    pass returns with an empty snapshot: the snapshot retained before is
    discarded, so that once the clipboard has been emptied a restore finds
    nothing to restore and leaves the clipboard empty. *)
Theorem unsupported_clipboard_discards_the_snapshot (fuel : nat) (s : Sys) :
  os_open (os s) = true ->
  wf_clip (os_clip (os s)) = true ->
  enum_ok (os s) = true ->
  (length (os_clip (os s)) < fuel)%nat ->
  (forall f, In f (keys (os_clip (os s))) -> mem f (SUPPORTED_CF reg) = false) ->
  exists s1 s2,
    _backup_clipboard reg fuel s = (Ret tt, s1) /\
    _clip_data (self s1) = [] /\
    _restore_clipboard (external_empty s1) = (Ret tt, s2) /\
    os_clip (os s2) = [] /\
    writes_of (trace s2) = writes_of (trace s1).
Proof.
  intros Hopen Hwf Hok Hfuel Hnone.
  destruct (_backup_clipboard_captured fuel s Hopen Hwf Hok Hfuel)
    as (s1 & E & Hself & Hos & _).
  assert (Hsnap : _clip_data (self s1) = []).
  { rewrite Hself. cbn. now apply captured_nil. }
  exists s1. eexists. split; [exact E|]. split; [exact Hsnap|].
  unfold _restore_clipboard, bind at 1, get_self.
  cbn [self external_empty with_os]. rewrite Hsnap. cbn [dict_is_empty].
  split; [reflexivity|]. split; [reflexivity|].
  cbn. rewrite writes_of_app. cbn. now rewrite app_nil_r.
Qed.


(** ** Further properties of an evaluation *)

Lemma enum_ok_frame (s s' : Sys) :
  os_enum_bad (os s') = os_enum_bad (os s) ->
  os_clip (os s') = os_clip (os s) ->
  enum_ok (os s') = enum_ok (os s).
Proof. intros H1 H2. unfold enum_ok. now rewrite H1, H2. Qed.

Lemma captured_frame (s s' : Sys) :
  os_read_bad (os s') = os_read_bad (os s) ->
  os_clip (os s') = os_clip (os s) ->
  captured reg (os s') = captured reg (os s).
Proof. intros H1 H2. unfold captured. now rewrite H1, H2. Qed.

(** An evaluation that gets the clipboard and finds formats on it. *)
Lemma _process_clip_backs_up (fuel : nat) (s : Sys) :
  _last_clip_seq (self s) < os_seq (os s) ->
  (os_busy (os s) < 4)%nat ->
  wf_clip (os_clip (os s)) = true ->
  os_clip (os s) <> [] ->
  enum_ok (os s) = true ->
  (length (os_clip (os s)) < fuel)%nat ->
  exists s',
    _process_clip reg fuel s = (Ret tt, s') /\
    _clip_data (self s') = captured reg (os s) /\
    _last_clip_seq (self s') = os_seq (os s) /\
    os_clip (os s') = os_clip (os s) /\
    os_seq (os s') = os_seq (os s) /\
    os_open (os s') = false /\
    os_busy (os s') = O /\
    frame s s'.
Proof.
  intros Hlt Hbusy Hwf Hne Hok Hfuel.
  destruct (_process_clip reg fuel s) as [r s'] eqn:E.
  pose proof (_process_clip_frame reg fuel s r s' E) as Hframe.
  revert E. rewrite _process_clip_newer by exact Hlt.
  pose proof (same_before_open s) as (Hself0 & Hos0 & _).
  destruct (open_attempts_spec [1; 2; 3; 4] (before_open s))
    as (s2 & E2 & Hself2 & Hf2 & Hclip2 & Hseq2 & Hopen2).
  rewrite Hos0 in Hopen2, Hclip2, Hseq2. rewrite Hself0 in Hself2.
  cbn [length] in Hopen2. apply Nat.ltb_lt in Hbusy. rewrite Hbusy in Hopen2.
  destruct Hopen2 as [Hopen2 Hbusy2].
  destruct Hf2 as (_ & _ & _ & Heb2 & Hrb2 & _). rewrite Hos0 in Heb2, Hrb2.
  unfold bind at 1. rewrite E2. unfold try_finally, process_clip_try.
  unfold bind at 1. rewrite EnumClipboardFormats_eq, Hopen2, Heb2.
  rewrite (enum_ok_In _ 0 Hok) by now left. cbn [negb orb].
  rewrite Hclip2.
  destruct (os_clip (os s)) as [|[f d] rest] eqn:Hclip; [now contradiction Hne|].
  destruct (wf_clip_split [] rest f d Hwf) as (Hf0 & _).
  cbn [enum_next Z.eqb]. apply Z.eqb_neq in Hf0. rewrite Hf0. cbn [negb].
  unfold bind at 1. cbn [logging_debug logging].
  set (s2' := emit _ (emit _ s2)).
  destruct (_backup_clipboard_captured fuel s2') as (s3 & E3 & Hself3 & Hos3 & _).
  { exact Hopen2. }
  { subst s2'. cbn [os emit]. now rewrite Hclip2. }
  { subst s2'. cbn [os emit]. rewrite (enum_ok_frame s s2); rewrite ?Hclip; assumption. }
  { subst s2'. cbn [os emit]. now rewrite Hclip2. }
  rewrite E3, process_clip_finally_eq, Hos3.
  subst s2'. cbn [os emit]. rewrite Hopen2.
  intros E. inversion E; subst r s'.
  eexists. split; [reflexivity|]. cbn [self os].
  cbn [_clip_data set_last_clip_seq _last_clip_seq os_clip os_seq os_open
       os_busy set_os_open].
  split.
  { rewrite Hself3. cbn [_clip_data set_clip_data self emit].
    apply (captured_frame s s2); rewrite ?Hclip; assumption. }
  split; [exact Hseq2|]. split; [exact Hclip2|]. split; [exact Hseq2|].
  split; [reflexivity|]. split; [exact Hbusy2 | exact Hframe].
Qed.

(** An evaluation that gets the clipboard and finds it empty. *)
Lemma _process_clip_restores (fuel : nat) (s : Sys) :
  _last_clip_seq (self s) < os_seq (os s) ->
  (os_busy (os s) < 4)%nat ->
  os_clip (os s) = [] ->
  mem 0 (os_enum_bad (os s)) = false ->
  nodupb (keys (_clip_data (self s))) = true ->
  (forall g, In g (keys (_clip_data (self s))) ->
             mem g (os_write_bad (os s)) = false) ->
  exists s',
    _process_clip reg fuel s = (Ret tt, s') /\
    os_clip (os s') = _clip_data (self s) /\
    _clip_data (self s') = _clip_data (self s) /\
    _last_clip_seq (self s') = os_seq (os s') /\
    os_open (os s') = false /\
    frame s s'.
Proof.
  intros Hlt Hbusy Hclip Hok Hnd Hwrite.
  destruct (_process_clip reg fuel s) as [r s'] eqn:E.
  pose proof (_process_clip_frame reg fuel s r s' E) as Hframe.
  revert E. rewrite _process_clip_newer by exact Hlt.
  pose proof (same_before_open s) as (Hself0 & Hos0 & _).
  destruct (open_attempts_spec [1; 2; 3; 4] (before_open s))
    as (s2 & E2 & Hself2 & Hf2 & Hclip2 & Hseq2 & Hopen2).
  rewrite Hos0 in Hopen2, Hclip2, Hseq2. rewrite Hself0 in Hself2.
  cbn [length] in Hopen2. apply Nat.ltb_lt in Hbusy. rewrite Hbusy in Hopen2.
  destruct Hopen2 as [Hopen2 Hbusy2].
  destruct Hf2 as (_ & _ & _ & Heb2 & _ & Hwb2 & _). rewrite Hos0 in Heb2, Hwb2.
  unfold bind at 1. rewrite E2. unfold try_finally, process_clip_try.
  unfold bind at 1. rewrite EnumClipboardFormats_eq, Hopen2, Heb2, Hok.
  cbn [negb orb]. rewrite Hclip2, Hclip. cbn [enum_next Z.eqb negb].
  unfold bind at 1. cbn [logging_debug logging].
  set (s2' := emit _ (emit _ s2)).
  assert (Hself2' : self s2' = self s) by exact Hself2.
  assert (Hos2' : os s2' = os s2) by reflexivity.
  destruct (_clip_data (self s)) as [|[f d] rest] eqn:Hsnap.
  - unfold _restore_clipboard, bind at 1, get_self.
    rewrite Hself2', Hsnap. cbn [dict_is_empty].
    unfold bind at 1. cbn [logging_debug logging ret].
    rewrite process_clip_finally_eq. cbn [os emit]. rewrite Hos2', Hopen2.
    intros E. inversion E; subst r s'.
    eexists. split; [reflexivity|].
    split; [cbn; now rewrite Hclip2, Hclip|].
    split; [cbn; now rewrite Hself2, Hsnap|].
    split; [reflexivity|]. split; [reflexivity | exact Hframe].
  - rewrite _restore_clipboard_open;
      [|rewrite Hself2', Hsnap; discriminate
       |rewrite Hself2', Hsnap; exact Hnd
       |rewrite Hos2'; exact Hopen2].
    cbv zeta. rewrite Hself2', Hsnap, Hos2'.
    set (o0 := set_os_clip [] (os_seq (os s2) + 1) (os s2)).
    destruct (write_all_whole ((f, d) :: rest) o0) as [Hfst Hwritten].
    { intros g Hg. cbn. rewrite Hwb2. now apply Hwrite. }
    { cbn [os_clip set_os_clip app o0]. now apply nodupb_NoDup. }
    pose proof (write_all_frame_open ((f, d) :: rest) o0) as Hopen3.
    cbn [os_open set_os_clip o0] in Hopen3. rewrite Hopen2 in Hopen3.
    cbn [os_clip set_os_clip app o0] in Hwritten.
    destruct (write_all ((f, d) :: rest) o0) as [done o3].
    cbn [fst snd] in *. subst done.
    rewrite process_clip_finally_eq. cbn [os]. rewrite Hopen3.
    intros E. inversion E; subst r s'.
    eexists. split; [reflexivity|].
    split; [exact Hwritten|].
    split; [cbn [self _clip_data set_last_clip_seq]; now rewrite Hsnap|].
    split; [reflexivity|]. split; [reflexivity | exact Hframe].
Qed.


Lemma captured_keys_In (o : OS) (g : format) :
  In g (keys (captured reg o)) ->
  In g (keys (os_clip o)) /\ mem g (SUPPORTED_CF reg) = true.
Proof.
  unfold captured, keys. rewrite !in_map_iff.
  intros ([f d] & <- & Hin). apply filter_In in Hin. destruct Hin as [Hin Hp].
  cbn [fst] in *. apply andb_true_iff in Hp. split; [|tauto].
  exists (f, d). now split.
Qed.

Lemma NoDup_keys_filter (p : format * payload -> bool) (d : dict) :
  NoDup (keys d) -> NoDup (keys (filter p d)).
Proof.
  induction d as [|[f v] d IH]; intros Hnd; [constructor|].
  cbn [keys map fst] in Hnd. inversion Hnd as [|? ? Hf Hnd']; subst.
  cbn [filter]. destruct (p (f, v)); [|now apply IH].
  cbn [keys map fst]. constructor; [|now apply IH].
  intros Hin. apply Hf. unfold keys in *. rewrite in_map_iff in *.
  destruct Hin as (e & He & Hin). exists e. split; [exact He|].
  apply filter_In in Hin. tauto.
Qed.

(** X5: a change of a well-formed clipboard is evaluated (the clipboard is
    obtained within the four attempts, enumeration works), another process
    then empties the clipboard, and that change is evaluated too, with the
    writes of the supported formats succeeding.  Both evaluations return
    normally; the first leaves the clipboard as it is and stores its
    supported, readable entries; the second puts exactly those entries
    back, whichever reads failed and however many formats there are. *)
Theorem emptied_clipboard_gets_the_backed_up_entries_back
  (fuel fuel' : nat) (s : Sys) :
  _last_clip_seq (self s) < os_seq (os s) ->
  (os_busy (os s) < 4)%nat ->
  wf_clip (os_clip (os s)) = true ->
  os_clip (os s) <> [] ->
  enum_ok (os s) = true ->
  (length (os_clip (os s)) < fuel)%nat ->
  (forall g, In g (keys (os_clip (os s))) -> mem g (SUPPORTED_CF reg) = true ->
             mem g (os_write_bad (os s)) = false) ->
  exists s1 s2,
    _process_clip reg fuel s = (Ret tt, s1) /\
    os_clip (os s1) = os_clip (os s) /\
    _clip_data (self s1) = captured reg (os s) /\
    _process_clip reg fuel' (external_empty s1) = (Ret tt, s2) /\
    os_clip (os s2) = captured reg (os s) /\
    _clip_data (self s2) = captured reg (os s).
Proof.
  intros Hlt Hbusy Hwf Hne Hok Hfuel Hwrite.
  destruct (_process_clip_backs_up fuel s Hlt Hbusy Hwf Hne Hok Hfuel)
    as (s1 & E1 & Hsnap1 & Hcur1 & Hclip1 & Hseq1 & Hopen1 & Hbusy1 & Hf1).
  destruct Hf1 as (_ & _ & _ & Heb1 & _ & Hwb1 & _).
  destruct (_process_clip_restores fuel' (external_empty s1))
    as (s2 & E2 & Hclip2 & Hsnap2 & _).
  - cbn. lia.
  - cbn. rewrite Hbusy1. lia.
  - reflexivity.
  - cbn. rewrite Heb1. apply enum_ok_In; [exact Hok | now left].
  - cbn [self external_empty with_os]. rewrite Hsnap1.
    apply nodupb_NoDup, NoDup_keys_filter. now apply wf_clip_NoDup.
  - intros g Hg. cbn [self os external_empty with_os] in *.
    cbn [os_write_bad set_os_clip]. rewrite Hsnap1 in Hg. rewrite Hwb1.
    apply captured_keys_In in Hg. now apply Hwrite.
  - exists s1, s2. cbn [self external_empty with_os] in Hclip2, Hsnap2.
    rewrite Hsnap1 in Hclip2, Hsnap2. repeat split; assumption.
Qed.

Lemma process_clip_try_sides (fuel : nat) (s : Sys) (r : res unit) (s' : Sys) :
  process_clip_try reg fuel s = (r, s') ->
  (enum_next (os_clip (os s)) 0 <> 0 -> os s' = os s) /\
  (enum_next (os_clip (os s)) 0 = 0 -> self s' = self s).
Proof.
  unfold process_clip_try. unfold bind at 1. rewrite EnumClipboardFormats_eq.
  destruct (negb (os_open (os s)) || mem 0 (os_enum_bad (os s))).
  { intros E. inversion E; subst. split; reflexivity. }
  unfold bind at 1. cbn [logging_debug logging].
  destruct (Z.eqb_spec (enum_next (os_clip (os s)) 0) 0) as [H0|H0];
    cbn [negb]; intros E.
  - split; [intros H; now contradiction H|]. intros _.
    match type of E with
    | _restore_clipboard ?s1 = _ =>
        destruct (_restore_clipboard_total s1) as (r0 & s0 & E0 & _ & Hself & _)
    end.
    rewrite E in E0. inversion E0; subst r0 s0. exact Hself.
  - split; [|intros H; now contradiction H0]. intros _.
    apply _backup_clipboard_inv in E. destruct E as (Hos & _). exact Hos.
Qed.

(** X6: whatever fails and whatever its outcome, an evaluation does one
    thing at most.  When the clipboard holds formats (the first of them not
    [0]), the evaluation leaves the clipboard contents and the sequence
    number as they are; when the clipboard is empty, it leaves the
    snapshot as it is. *)
Theorem evaluation_touches_clipboard_or_snapshot_never_both
  (fuel : nat) (s : Sys) (r : res unit) (s' : Sys) :
  _process_clip reg fuel s = (r, s') ->
  (forall f d rest,
     os_clip (os s) = (f, d) :: rest -> f <> 0 ->
     os_clip (os s') = os_clip (os s) /\ os_seq (os s') = os_seq (os s)) /\
  (os_clip (os s) = [] -> _clip_data (self s') = _clip_data (self s)).
Proof.
  destruct (Z.le_gt_cases (os_seq (os s)) (_last_clip_seq (self s))) as [Hle|Hlt].
  { rewrite _process_clip_duplicate by exact Hle. intros E. inversion E; subst.
    split; [intros; split|]; reflexivity. }
  rewrite _process_clip_newer by exact Hlt.
  pose proof (same_before_open s) as (Hself0 & Hos0 & _).
  destruct (open_attempts_spec [1; 2; 3; 4] (before_open s))
    as (s2 & E2 & Hself2 & _ & Hclip2 & Hseq2 & _).
  rewrite Hos0 in Hclip2, Hseq2. rewrite Hself0 in Hself2.
  unfold bind at 1. rewrite E2. unfold try_finally.
  destruct (process_clip_try reg fuel s2) as [r3 s3] eqn:E3.
  apply process_clip_try_sides in E3. rewrite Hclip2 in E3.
  destruct E3 as [Hkeep_os Hkeep_self].
  rewrite process_clip_finally_eq.
  assert (Hgoal :
    (forall f d rest,
       os_clip (os s) = (f, d) :: rest -> f <> 0 ->
       os_clip (os s3) = os_clip (os s) /\ os_seq (os s3) = os_seq (os s)) /\
    (os_clip (os s) = [] -> _clip_data (self s3) = _clip_data (self s))).
  { split.
    - intros f d rest Hclip Hf. rewrite Hkeep_os; [now split|].
      rewrite Hclip. cbn. exact Hf.
    - intros Hclip. rewrite Hkeep_self; [now rewrite Hself2|].
      now rewrite Hclip. }
  destruct Hgoal as [G1 G2].
  destruct r3; destruct (os_open (os s3)); intros E; inversion E; subst;
    (split; [exact G1 | exact G2]).
Qed.

(** X7: after an evaluation that got the clipboard, whether it returned or
    raised, the cursor is the system's sequence number, so the
    notifications its own [EmptyClipboard] and [SetClipboardData] calls
    give rise to are discarded: the next evaluation, with nothing changed
    in between, only reads the sequence number and logs. *)
Theorem own_changes_are_not_evaluated_again (fuel fuel' : nat) (s : Sys) :
  _last_clip_seq (self s) < os_seq (os s) ->
  (os_busy (os s) < 4)%nat ->
  wf_clip (os_clip (os s)) = true ->
  (length (os_clip (os s)) < fuel)%nat ->
  exists r s',
    _process_clip reg fuel s = (r, s') /\
    _process_clip reg fuel' s'
    = (Ret tt,
       mkSys (self s') (os s')
             (trace s' ++ [Call GetClipboardSequenceNumber_;
                           Log DEBUG (Start_sequence (os_seq (os s'))
                                                     (os_seq (os s')));
                           Log DEBUG (Ignore_processed (os_seq (os s')))])).
Proof.
  intros Hlt Hbusy Hwf Hfuel.
  destruct (_process_clip_acquired reg fuel s Hlt Hbusy Hwf Hfuel)
    as (r & s' & E & _ & _ & Hcur & _).
  exists r, s'. split; [exact E|].
  rewrite _process_clip_duplicate by lia. now rewrite Hcur.
Qed.


Lemma _process_clip_unacquired (fuel : nat) (s : Sys) :
  _last_clip_seq (self s) < os_seq (os s) ->
  (4 <= os_busy (os s))%nat ->
  os_open (os s) = false ->
  exists s1,
    _process_clip reg fuel s = (Raise (Error CloseClipboard_), s1) /\
    self s1 = self s /\
    frame s s1 /\
    os_clip (os s1) = os_clip (os s) /\
    os_seq (os s1) = os_seq (os s) /\
    os_open (os s1) = false /\
    os_busy (os s1) = (os_busy (os s) - 4)%nat.
Proof.
  intros Hlt Hbusy Hopen.
  rewrite _process_clip_newer by exact Hlt.
  pose proof (same_before_open s) as Hsame0.
  pose proof Hsame0 as (Hself0 & Hos0 & _).
  destruct (open_attempts_spec [1; 2; 3; 4] (before_open s))
    as (s2 & E2 & Hself2 & Hf2 & Hclip2 & Hseq2 & Hopen2).
  rewrite Hos0 in Hopen2, Hclip2, Hseq2. rewrite Hself0 in Hself2.
  cbn [length] in Hopen2.
  destruct (Nat.ltb_spec (os_busy (os s)) 4) as [Hlt4|_]; [lia|].
  destruct Hopen2 as [Hopen2 Hbusy2]. rewrite Hopen in Hopen2.
  unfold bind at 1. rewrite E2. unfold try_finally.
  destruct (process_clip_try reg fuel s2) as [r3 s3] eqn:E3.
  apply process_clip_try_inv in E3.
  destruct E3 as (Hf3 & Hopen3 & Hbusy3 & _ & Hclosed).
  destruct (Hclosed Hopen2) as (-> & Hself3 & Hos3 & _).
  rewrite process_clip_finally_eq, Hopen3, Hopen2.
  eexists. split; [reflexivity|]. cbn [self os emit].
  split; [congruence|].
  split.
  { eapply frame_trans; [apply same_frame; exact Hsame0|].
    eapply frame_trans; [exact Hf2|].
    eapply frame_trans; [exact Hf3 | apply same_frame, same_emit]. }
  rewrite Hos3. repeat split; assumption.
Qed.

(** X8: a change that could not be evaluated because the clipboard was
    held by another process during all four attempts is not lost: the
    failed evaluation leaves [self], cursor included, untouched, so the
    next notification, even with the same sequence number, is evaluated,
    and once the clipboard can be opened its entries are backed up. *)
Theorem change_missed_while_busy_is_evaluated_next_time (fuel : nat) (s : Sys) :
  _last_clip_seq (self s) < os_seq (os s) ->
  (4 <= os_busy (os s) < 8)%nat ->
  os_open (os s) = false ->
  wf_clip (os_clip (os s)) = true ->
  os_clip (os s) <> [] ->
  enum_ok (os s) = true ->
  (length (os_clip (os s)) < fuel)%nat ->
  exists e s1 s2,
    _process_clip reg fuel s = (Raise e, s1) /\
    self s1 = self s /\
    os_seq (os s1) = os_seq (os s) /\
    _process_clip reg fuel s1 = (Ret tt, s2) /\
    _clip_data (self s2) = captured reg (os s) /\
    _last_clip_seq (self s2) = os_seq (os s).
Proof.
  intros Hlt [Hbusy4 Hbusy8] Hopen Hwf Hne Hok Hfuel.
  destruct (_process_clip_unacquired fuel s Hlt Hbusy4 Hopen)
    as (s1 & E1 & Hself1 & Hf1 & Hclip1 & Hseq1 & Hopen1 & Hbusy1).
  destruct Hf1 as (_ & _ & _ & Heb1 & Hrb1 & _).
  destruct (_process_clip_backs_up fuel s1)
    as (s2 & E2 & Hsnap & Hcur & _).
  - now rewrite Hself1, Hseq1.
  - rewrite Hbusy1. lia.
  - now rewrite Hclip1.
  - now rewrite Hclip1.
  - now rewrite (enum_ok_frame s s1).
  - now rewrite Hclip1.
  - exists (Error CloseClipboard_), s1, s2.
    split; [exact E1|]. split; [exact Hself1|]. split; [exact Hseq1|].
    split; [exact E2|].
    split; [now rewrite Hsnap, (captured_frame s s1) | now rewrite Hcur].
Qed.

(** X9: the retry loop of [_process_clip] never raises and leaves [self]
    alone.  When the next [busy] calls of [OpenClipboard] are refused it
    makes [busy + 1] attempts, four at most, sleeping [100 * i] ms before
    the [i]-th and logging an error after each refused one; it stops at
    the first attempt that succeeds, and then the clipboard is open. *)
Theorem retry_loop_stops_at_first_success_or_after_four (s : Sys) :
  exists s',
    open_attempts [1; 2; 3; 4] s = (Ret tt, s') /\
    self s' = self s /\
    trace s' = trace s ++ attempts_trace (os_busy (os s)) /\
    opens_of (attempts_trace (os_busy (os s))) = Nat.min (S (os_busy (os s))) 4 /\
    os_open (os s')
    = (if (os_busy (os s) <? 4)%nat then true else os_open (os s)) /\
    os_busy (os s') = (os_busy (os s) - 4)%nat /\
    os_clip (os s') = os_clip (os s) /\
    os_seq (os s') = os_seq (os s).
Proof.
  destruct s as [c [clip seq opened busy eb rb wb ths ls nt] t].
  destruct busy as [|[|[|[|k]]]];
    (eexists; split; [reflexivity|]; cbn; rewrite <- ?app_assoc;
     repeat split; try reflexivity).
  now rewrite Nat.sub_0_r.
Qed.


Lemma restore_format_seq (f : format) (s : Sys) (r : res bool) (s1 : Sys) :
  restore_format f s = (r, s1) -> os_seq (os s) <= os_seq (os s1).
Proof.
  destruct (dict_get (_clip_data (self s)) f) as [d|] eqn:Hd.
  - rewrite (restore_format_eq f d s Hd).
    destruct (negb (os_open (os s)) || mem f (os_write_bad (os s)));
      intros E; inversion E; subst; cbn; lia.
  - unfold restore_format, try_except, bind, clip_data_at, get_self.
    cbn. rewrite Hd. cbn. rewrite Hd.
    intros E. inversion E; subst. lia.
Qed.

Lemma restore_loop_seq (formats : list format) :
  forall (s : Sys) (r : res bool) (s' : Sys),
    restore_loop formats s = (r, s') -> os_seq (os s) <= os_seq (os s').
Proof.
  induction formats as [|f formats IH]; intros s r s'.
  - cbn. intros E. inversion E; subst. lia.
  - cbn [restore_loop]. unfold bind at 1.
    destruct (restore_format f s) as [r1 s1] eqn:E1.
    apply restore_format_seq in E1.
    destruct r1 as [[]| |]; intros E.
    + apply IH in E. lia.
    + inversion E; subst. exact E1.
    + inversion E; subst. exact E1.
    + inversion E; subst. exact E1.
Qed.

Lemma _restore_clipboard_seq (s : Sys) (r : res unit) (s' : Sys) :
  _restore_clipboard s = (r, s') -> os_seq (os s) <= os_seq (os s').
Proof.
  unfold _restore_clipboard, bind at 1, get_self.
  destruct (dict_is_empty (_clip_data (self s))).
  { intros E. inversion E; subst. cbn. lia. }
  unfold bind at 1. cbn [logging_debug logging].
  unfold bind at 1. rewrite EmptyClipboard_eq. cbn [os emit].
  destruct (os_open (os s)); [|intros E; inversion E; subst; cbn; lia].
  unfold bind at 1.
  match goal with
  | |- context [restore_loop ?ks ?s0] =>
      destruct (restore_loop ks s0) as [r1 s1] eqn:E1
  end.
  apply restore_loop_seq in E1. cbn in E1.
  destruct r1 as [[]| |]; intros E; inversion E; subst; cbn; lia.
Qed.

Lemma process_clip_try_seq (fuel : nat) (s : Sys) (r : res unit) (s' : Sys) :
  process_clip_try reg fuel s = (r, s') -> os_seq (os s) <= os_seq (os s').
Proof.
  unfold process_clip_try. unfold bind at 1. rewrite EnumClipboardFormats_eq.
  destruct (negb (os_open (os s)) || mem 0 (os_enum_bad (os s))).
  { intros E. inversion E; subst. cbn. lia. }
  unfold bind at 1. cbn [logging_debug logging].
  destruct (negb (enum_next (os_clip (os s)) 0 =? 0)); intros E.
  - apply _backup_clipboard_inv in E. destruct E as (Hos & _).
    rewrite Hos. cbn. lia.
  - apply _restore_clipboard_seq in E. cbn in E. exact E.
Qed.

(** X10: whatever fails and whatever its outcome, an evaluation never
    moves the system's sequence number or the cursor backwards, and a
    cursor that is not above the system's number stays so.  Hence a change
    that another process makes after an evaluation, which moves the
    system's number on, is never mistaken for a duplicate. *)
Theorem cursor_never_passes_the_sequence_number
  (fuel : nat) (s : Sys) (r : res unit) (s' : Sys) :
  _process_clip reg fuel s = (r, s') ->
  _last_clip_seq (self s) <= os_seq (os s) ->
  os_seq (os s) <= os_seq (os s') /\
  _last_clip_seq (self s) <= _last_clip_seq (self s') /\
  _last_clip_seq (self s') <= os_seq (os s') /\
  _last_clip_seq (self (external_empty s')) < os_seq (os (external_empty s')).
Proof.
  intros E Hinv.
  assert (H : os_seq (os s) <= os_seq (os s') /\
              _last_clip_seq (self s) <= _last_clip_seq (self s') /\
              _last_clip_seq (self s') <= os_seq (os s')).
  { revert E.
    destruct (Z.le_gt_cases (os_seq (os s)) (_last_clip_seq (self s))) as [Hle|Hlt].
    { rewrite _process_clip_duplicate by exact Hle. intros E. inversion E; subst.
      cbn. lia. }
    rewrite _process_clip_newer by exact Hlt.
    pose proof (same_before_open s) as (Hself0 & Hos0 & _).
    destruct (open_attempts_spec [1; 2; 3; 4] (before_open s))
      as (s2 & E2 & Hself2 & _ & _ & Hseq2 & _).
    rewrite Hos0 in Hseq2. rewrite Hself0 in Hself2.
    unfold bind at 1. rewrite E2. unfold try_finally.
    destruct (process_clip_try reg fuel s2) as [r3 s3] eqn:E3.
    pose proof (process_clip_try_seq _ _ _ _ E3) as Hseq3.
    apply process_clip_try_inv in E3. destruct E3 as (_ & _ & _ & Hcur3 & _).
    rewrite Hself2 in Hcur3.
    rewrite process_clip_finally_eq.
    destruct r3; destruct (os_open (os s3)); intros E; inversion E; subst;
      cbn; lia. }
  destruct H as (H1 & H2 & H3). repeat split; try assumption.
  cbn. lia.
Qed.


(** ** Further properties of the window procedure and the listener *)

(** The window procedure answers [0] whenever it returns, and a message
    other than [WM_CLIPBOARDUPDATE] has no effect at all: no system call,
    no log entry, no change of [self]. *)
Lemma window_procedure_ignores_other_messages
  (fuel : nat) (hwnd msg wparam lparam : Z) (s : Sys) :
  (forall v s', _process_message reg fuel hwnd msg wparam lparam s = (Ret v, s') ->
                v = 0) /\
  (msg <> WM_CLIPBOARDUPDATE ->
   _process_message reg fuel hwnd msg wparam lparam s = (Ret 0, s)).
Proof.
  unfold _process_message. split.
  - intros v s'. unfold bind at 1.
    destruct (if msg =? WM_CLIPBOARDUPDATE then _process_clip reg fuel else ret tt)
      as [[[]| |] s1]; cbn; intros E; inversion E; reflexivity.
  - intros Hne. apply Z.eqb_neq in Hne. rewrite Hne. reflexivity.
Qed.


Lemma count_put_queue_app (p : Z -> bool) (tid m : Z) (q : list Z) :
  length (filter p (concat (map snd (put_queue [(tid, q)] tid (q ++ [m])))))
  = (length (filter p (concat (map snd [(tid, q)])))
     + if p m then 1 else 0)%nat.
Proof.
  cbn. rewrite Z.eqb_refl. cbn. rewrite !app_nil_r, filter_app, length_app.
  cbn. now destruct (p m).
Qed.

(** X12: in every state a [Clipboard] can reach, [stop] returns normally.
    It changes neither [self] nor the clipboard; on a running listener it
    posts exactly one [WM_QUIT] to the listener's thread, and the listener
    stays running until its message loop takes that message. *)
Theorem stop_never_raises_in_a_reachable_state (fuel : nat) (s : Sys) :
  reachable reg fuel s ->
  exists s',
    stop s = (Ret tt, s') /\
    self s' = self s /\
    os_clip (os s') = os_clip (os s) /\
    os_seq (os s') = os_seq (os s) /\
    listener_state s' = listener_state s /\
    pending_quits (os s')
    = (pending_quits (os s)
       + match listener_state s with Running => 1 | Stopped => 0 end)%nat.
Proof.
  intros Hreach. apply reachable_one_listener in Hreach.
  rewrite stop_eq. unfold listener_state.
  destruct Hreach as [[Htid Hths]|[Hpos [q Hths]]].
  - rewrite Htid. cbn. eexists. split; [reflexivity|].
    rewrite Htid. cbn. repeat split. lia.
  - destruct (Z.gtb_spec (_thread_id (self s)) 0) as [_|Hle]; [|lia].
    rewrite Hths. cbn [thread_queue]. rewrite Z.eqb_refl.
    eexists. split; [reflexivity|]. cbn [self os].
    destruct (Z.gtb_spec (_thread_id (self s)) 0) as [_|Hle]; [|lia].
    repeat split. unfold pending_quits. cbn [os_threads set_os_threads].
    rewrite Hths, count_put_queue_app. reflexivity.
Qed.


Lemma perform_keeps_construction (fuel : nat) (a : action) (s : Sys)
      (r : res unit) (s' : Sys) :
  perform reg fuel a s = (r, s') ->
  _trigger_at_start (self s') = _trigger_at_start (self s) /\
  _hwnd (self s') = _hwnd (self s).
Proof.
  destruct a as [| |msg|tid]; cbn [perform].
  - rewrite listen_eq. destruct (_thread_id (self s) >? 0).
    { intros E. inversion E; subst. now split. }
    destruct (_trigger_at_start (self s)) eqn:Htr.
    + destruct (_process_clip reg fuel s) as [r1 s1] eqn:E1.
      apply _process_clip_frame in E1. destruct E1 as (H1 & _ & H3 & _).
      rewrite <- Htr.
      destruct r1; intros E; inversion E; subst; cbn; now split.
    + intros E. inversion E; subst. cbn. now split.
  - rewrite stop_eq. destruct (_thread_id (self s) >? 0);
      [destruct (thread_queue (os_threads (os s)) (_thread_id (self s)))|];
      intros E; inversion E; subst; now split.
  - unfold bind at 1, get_self. unfold bind at 1.
    destruct (_process_message reg fuel _ msg 0 0 s) as [r1 s1] eqn:E1.
    apply _process_message_frame in E1. destruct E1 as (H1 & _ & H3 & _).
    destruct r1; intros E; inversion E; subst; now split.
  - rewrite pump_eq.
    destruct (thread_queue (os_threads (os s)) tid) as [[|m q]|];
      [| destruct (m =? WM_QUIT) |]; intros E; inversion E; subst; now split.
Qed.

Lemma perform_all_keeps_construction (fuel : nat) (actions : list action) :
  forall s : Sys,
    _trigger_at_start (self (perform_all reg fuel actions s))
    = _trigger_at_start (self s).
Proof.
  induction actions as [|a actions IH]; intros s; [reflexivity|].
  change (perform_all reg fuel (a :: actions) s)
    with (perform_all reg fuel actions (snd (perform reg fuel a s))).
  rewrite IH.
  destruct (perform reg fuel a s) as [r s'] eqn:E.
  now apply perform_keeps_construction in E.
Qed.

Lemma clipboard_calls_app (t1 t2 : list event) :
  clipboard_calls (t1 ++ t2) = clipboard_calls t1 ++ clipboard_calls t2.
Proof. apply filter_app. Qed.

(** X14: no action ever changes [_trigger_at_start].  So for a
    [Clipboard] constructed with [trigger_at_start=False], as
    [TrayIcon.run] constructs it, and after any sequence of actions,
    [listen] returns normally without a single clipboard call: it either
    logs that the listener is running or starts the thread. *)
Theorem listen_without_trigger_never_evaluates
  (fuel : nat) (actions : list action) (s : Sys) :
  _trigger_at_start (self s) = false ->
  let s' := perform_all reg fuel actions s in
  exists s'',
    listen reg fuel s' = (Ret tt, s'') /\
    clipboard_calls (trace s'') = clipboard_calls (trace s') /\
    os_clip (os s'') = os_clip (os s') /\
    _clip_data (self s'') = _clip_data (self s') /\
    _last_clip_seq (self s'') = _last_clip_seq (self s').
Proof.
  intros Htrigger s'.
  assert (Htr : _trigger_at_start (self s') = false)
    by (subst s'; now rewrite perform_all_keeps_construction).
  rewrite listen_eq, Htr.
  destruct (_thread_id (self s') >? 0); eexists; (split; [reflexivity|]);
    cbn; rewrite clipboard_calls_app; cbn; rewrite app_nil_r; repeat split.
Qed.


End Further.

(** ** Properties of [_format_name] *)

Section FormatName.

(** The integer constants of the module [win32clipboard]. *)
Variable module_vars : list (string * Z).

Lemma names_get_set (d : names) (k g : format) (v : string) :
  names_get (names_set d k v) g
  = if k =? g then Some v else names_get d g.
Proof.
  induction d as [|[k' v'] d IH]; cbn.
  - reflexivity.
  - destruct (Z.eqb_spec k' k) as [->|Hne]; cbn.
    + now destruct (k =? g).
    + rewrite IH. destruct (Z.eqb_spec k' g) as [->|Hne']; [|reflexivity].
      apply Z.eqb_neq in Hne. now rewrite Z.eqb_sym, Hne.
Qed.

(** One call never changes the name the cache has for a format. *)
Lemma _format_name_keeps (f g : format) (n : string) (st : NameState) :
  names_get (cache module_vars st) g = Some n ->
  names_get (cache module_vars (snd (_format_name module_vars f st))) g = Some n.
Proof.
  intros Hg. unfold _format_name.
  destruct (names_get (cache module_vars st) f) eqn:Hf; [exact Hg|].
  destruct (names_get (registered st) f); [|exact Hg].
  cbn. rewrite names_get_set.
  destruct (Z.eqb_spec f g) as [->|_]; [congruence | exact Hg].
Qed.

(** X15: once the cache has a name for a format, that name is what
    [_format_name] returns for it from then on, whatever other formats are
    named in between and whatever the system would answer: the call is
    served from the cache, without [GetClipboardFormatName], and leaves
    the cache as it is. *)
Theorem known_format_name_is_served_from_the_cache
  (g : format) (n : string) (fmts : list format) (st : NameState) :
  names_get (cache module_vars st) g = Some n ->
  let st' := name_all module_vars fmts st in
  _format_name module_vars g st'
  = (n, mkNameState (Some (cache module_vars st')) (registered st')
                    (name_calls st')).
Proof.
  intros Hg st'.
  assert (Hg' : names_get (cache module_vars st') g = Some n).
  { subst st'. revert st Hg.
    induction fmts as [|f fmts IH]; intros st Hg; [exact Hg|].
    cbn [name_all fold_left]. apply IH. now apply _format_name_keeps. }
  unfold _format_name. now rewrite Hg'.
Qed.

(** X16: a format that is not in the cache and that the system knows is
    named by exactly one [GetClipboardFormatName] call; the name is put
    into the cache, and a second call returns the same name without
    asking the system and without changing anything. *)
Theorem registered_format_is_looked_up_once
  (fmt : format) (n : string) (st : NameState) :
  names_get (cache module_vars st) fmt = None ->
  names_get (registered st) fmt = Some n ->
  exists st1,
    _format_name module_vars fmt st = (n, st1) /\
    name_calls st1 = name_calls st ++ [fmt] /\
    names_get (cache module_vars st1) fmt = Some n /\
    _format_name module_vars fmt st1 = (n, st1).
Proof.
  intros Hmiss Hreg. unfold _format_name at 1. rewrite Hmiss, Hreg.
  eexists. split; [reflexivity|]. split; [reflexivity|].
  assert (Hhit : names_get (names_set (cache module_vars st) fmt n) fmt = Some n)
    by (rewrite names_get_set; now rewrite Z.eqb_refl).
  split; [exact Hhit|].
  unfold _format_name. cbn [cache formats]. now rewrite Hhit.
Qed.

(** X17: a format that neither the cache nor the system knows is named
    ["unknown"], and that answer is not remembered: the cache stays as it
    is, every further call asks the system again, and as soon as the
    system has a name for the format the next call returns that name. *)
Theorem unknown_format_is_asked_again
  (fmt : format) (st : NameState) :
  names_get (cache module_vars st) fmt = None ->
  names_get (registered st) fmt = None ->
  exists st1,
    _format_name module_vars fmt st = ("unknown"%string, st1) /\
    cache module_vars st1 = cache module_vars st /\
    name_calls st1 = name_calls st ++ [fmt] /\
    name_calls (snd (_format_name module_vars fmt st1))
    = name_calls st ++ [fmt; fmt] /\
    forall n,
      fst (_format_name module_vars fmt
             (mkNameState (formats st1) ((fmt, n) :: registered st1)
                          (name_calls st1)))
      = n.
Proof.
  intros Hmiss Hreg. unfold _format_name at 1. rewrite Hmiss, Hreg.
  eexists. split; [reflexivity|]. split; [reflexivity|].
  split; [reflexivity|]. split.
  - unfold _format_name. cbn [cache formats registered name_calls].
    rewrite Hmiss, Hreg. cbn. now rewrite <- app_assoc.
  - intros n. unfold _format_name. cbn [cache formats registered name_calls].
    rewrite Hmiss. cbn. now rewrite Z.eqb_refl.
Qed.

End FormatName.

(** ** The further properties on sample inputs *)

Lemma backup_replaces_snapshot_by_readable_supported_entries_witness :
  let s := sample_sys false [(CF_OEMTEXT, hello)] 0
             (sample_os text_clip 1 true 0 [] [CF_TEXT] []) in
  exists s',
    _backup_clipboard sample_register 4 s = (Ret tt, s') /\
    _clip_data (self s') = [(CF_UNICODETEXT, hello)] /\
    os s' = os s.
Proof.
  intros s.
  destruct (backup_replaces_snapshot_by_readable_supported_entries
              sample_register 4 s)
    as (s' & E & Hsnap & _ & Hos); try reflexivity; [vm_compute; lia|].
  exists s'. split; [exact E|]. split; [exact Hsnap | exact Hos].
Defined.

Lemma backup_is_all_or_nothing_witness :
  let s := sample_sys false [(CF_OEMTEXT, hello)] 0
             (sample_os text_clip 1 true 0 [CF_UNICODETEXT] [] []) in
  let rs := _backup_clipboard sample_register 4 s in
  fst rs = Raise (Error (EnumClipboardFormats_ CF_UNICODETEXT)) /\
  os (snd rs) = os s /\
  self (snd rs) = self s.
Proof.
  intros s rs.
  destruct (backup_is_all_or_nothing sample_register 4 s (fst rs) (snd rs))
    as (Hos & Hkeep & _); [vm_compute; reflexivity|].
  split; [vm_compute; reflexivity|]. split; [exact Hos|].
  apply Hkeep. vm_compute. discriminate.
Defined.

Lemma restore_puts_whole_snapshot_on_clipboard_witness :
  let s := sample_sys false [(CF_UNICODETEXT, hello); (CF_TEXT, hello)] 1
             (sample_os [(2, hello)] 2 true 0 [] [] []) in
  exists s' t,
    _restore_clipboard s = (Ret tt, s') /\
    self s' = self s /\
    os_clip (os s') = [(CF_UNICODETEXT, hello); (CF_TEXT, hello)] /\
    os_seq (os s') = 5 /\
    trace s' = [Log DEBUG Restore_starts; Call EmptyClipboard_]
               ++ t ++ [Log INFO (Restored 2)] /\
    writes_of t = [(CF_UNICODETEXT, hello); (CF_TEXT, hello)].
Proof.
  intros s.
  apply (restore_puts_whole_snapshot_on_clipboard s); try reflexivity.
  vm_compute. discriminate.
Defined.

Lemma unsupported_clipboard_discards_the_snapshot_witness :
  let s := sample_sys false [(CF_UNICODETEXT, hello)] 0
             (sample_os [(2, hello); (8, hello)] 1 true 0 [] [] []) in
  exists s1 s2,
    _backup_clipboard sample_register 3 s = (Ret tt, s1) /\
    _clip_data (self s1) = [] /\
    _restore_clipboard (external_empty s1) = (Ret tt, s2) /\
    os_clip (os s2) = [] /\
    writes_of (trace s2) = writes_of (trace s1).
Proof.
  intros s.
  apply (unsupported_clipboard_discards_the_snapshot sample_register 3 s);
    try reflexivity; [vm_compute; lia|].
  intros f [<-|[<-|[]]]; reflexivity.
Defined.

Lemma emptied_clipboard_gets_the_backed_up_entries_back_witness :
  let s := sample_sys false [] 0
             (sample_os text_clip 1 false 2 [] [CF_TEXT] []) in
  exists s1 s2,
    _process_clip sample_register 4 s = (Ret tt, s1) /\
    os_clip (os s1) = text_clip /\
    _clip_data (self s1) = [(CF_UNICODETEXT, hello)] /\
    _process_clip sample_register 0 (external_empty s1) = (Ret tt, s2) /\
    os_clip (os s2) = [(CF_UNICODETEXT, hello)] /\
    _clip_data (self s2) = [(CF_UNICODETEXT, hello)].
Proof.
  intros s.
  apply (emptied_clipboard_gets_the_backed_up_entries_back sample_register 4 0 s);
    try (vm_compute; reflexivity); try (vm_compute; lia); discriminate.
Defined.

Lemma evaluation_touches_clipboard_or_snapshot_never_both_witness :
  let s := sample_sys false [(CF_OEMTEXT, hello)] 0
             (sample_os text_clip 1 false 1 [] [] []) in
  let s' := snd (_process_clip sample_register 4 s) in
  os_clip (os s') = text_clip /\ os_seq (os s') = 1 /\
  _clip_data (self s') = [(CF_UNICODETEXT, hello); (CF_TEXT, hello)].
Proof.
  intros s s'.
  destruct (evaluation_touches_clipboard_or_snapshot_never_both
              sample_register 4 s (fst (_process_clip sample_register 4 s)) s')
    as [Hclip _]; [vm_compute; reflexivity|].
  destruct (Hclip CF_UNICODETEXT hello [(2, hello); (CF_TEXT, hello)])
    as [H1 H2]; [reflexivity | discriminate |].
  split; [exact H1|]. split; [exact H2 | vm_compute; reflexivity].
Defined.

Lemma own_changes_are_not_evaluated_again_witness :
  let s := sample_sys false [(CF_UNICODETEXT, hello)] 1
             (sample_os [] 2 false 0 [] [] []) in
  exists r s',
    _process_clip sample_register 1 s = (r, s') /\
    _process_clip sample_register 0 s'
    = (Ret tt,
       mkSys (self s') (os s')
             (trace s' ++ [Call GetClipboardSequenceNumber_;
                           Log DEBUG (Start_sequence (os_seq (os s'))
                                                     (os_seq (os s')));
                           Log DEBUG (Ignore_processed (os_seq (os s')))])).
Proof.
  intros s.
  apply (own_changes_are_not_evaluated_again sample_register 1 0 s);
    try (vm_compute; reflexivity); vm_compute; lia.
Defined.

Lemma change_missed_while_busy_is_evaluated_next_time_witness :
  let s := sample_sys false [] 0
             (sample_os text_clip 1 false 5 [] [] []) in
  exists e s1 s2,
    _process_clip sample_register 4 s = (Raise e, s1) /\
    self s1 = self s /\
    os_seq (os s1) = os_seq (os s) /\
    _process_clip sample_register 4 s1 = (Ret tt, s2) /\
    _clip_data (self s2) = [(CF_UNICODETEXT, hello); (CF_TEXT, hello)] /\
    _last_clip_seq (self s2) = 1.
Proof.
  intros s.
  apply (change_missed_while_busy_is_evaluated_next_time sample_register 4 s);
    try (vm_compute; reflexivity); try (vm_compute; lia); discriminate.
Defined.

Lemma cursor_never_passes_the_sequence_number_witness :
  let s := sample_sys false [(CF_UNICODETEXT, hello)] 1
             (sample_os [] 2 false 0 [] [] []) in
  let s' := snd (_process_clip sample_register 1 s) in
  os_seq (os s) <= os_seq (os s') /\
  _last_clip_seq (self s) <= _last_clip_seq (self s') /\
  _last_clip_seq (self s') <= os_seq (os s') /\
  _last_clip_seq (self (external_empty s')) < os_seq (os (external_empty s')).
Proof.
  intros s s'.
  apply (cursor_never_passes_the_sequence_number
           sample_register 1 s (fst (_process_clip sample_register 1 s)) s');
    [vm_compute; reflexivity | vm_compute; discriminate].
Defined.


Lemma stop_never_raises_in_a_reachable_state_witness :
  let s0 := mkSys (__init__ false 77) (sample_os text_clip 1 false 0 [] [] []) [] in
  let s := snd (perform sample_register 4 Do_listen s0) in
  exists s',
    stop s = (Ret tt, s') /\
    self s' = self s /\
    os_clip (os s') = os_clip (os s) /\
    os_seq (os s') = os_seq (os s) /\
    listener_state s' = Running /\
    pending_quits (os s') = 1%nat.
Proof.
  intros s0 s.
  apply (stop_never_raises_in_a_reachable_state sample_register 4 s).
  apply (reachable_step sample_register 4 Do_listen s0
           (fst (perform sample_register 4 Do_listen s0)) s).
  - apply reachable_init. reflexivity.
  - vm_compute. reflexivity.
Defined.


Lemma listen_without_trigger_never_evaluates_witness :
  let s := mkSys (__init__ false 77) (sample_os text_clip 1 false 0 [] [] []) [] in
  let s' := perform_all sample_register 4
              [Do_listen; Do_message WM_CLIPBOARDUPDATE; Do_stop] s in
  exists s'',
    listen sample_register 4 s' = (Ret tt, s'') /\
    clipboard_calls (trace s'') = clipboard_calls (trace s') /\
    os_clip (os s'') = os_clip (os s') /\
    _clip_data (self s'') = _clip_data (self s') /\
    _last_clip_seq (self s'') = _last_clip_seq (self s').
Proof.
  intros s.
  apply (listen_without_trigger_never_evaluates sample_register 4
           [Do_listen; Do_message WM_CLIPBOARDUPDATE; Do_stop] s).
  reflexivity.
Defined.

Lemma known_format_name_is_served_from_the_cache_witness :
  let st := mkNameState None [(0xC0E8, "HTML Format"%string)] [] in
  let st' := name_all sample_module_vars [0xC0E8; 2; 0] st in
  _format_name sample_module_vars 1 st'
  = ("CF_TEXT"%string,
     mkNameState (Some (cache sample_module_vars st')) (registered st')
                 [0xC0E8; 0]).
Proof.
  intros st.
  apply (known_format_name_is_served_from_the_cache sample_module_vars 1
           "CF_TEXT"%string [0xC0E8; 2; 0] st).
  reflexivity.
Defined.

Lemma registered_format_is_looked_up_once_witness :
  let st := mkNameState None [(0xC0E8, "HTML Format"%string)] [] in
  exists st1,
    _format_name sample_module_vars 0xC0E8 st = ("HTML Format"%string, st1) /\
    name_calls st1 = [0xC0E8] /\
    names_get (cache sample_module_vars st1) 0xC0E8 = Some "HTML Format"%string /\
    _format_name sample_module_vars 0xC0E8 st1 = ("HTML Format"%string, st1).
Proof.
  intros st.
  apply (registered_format_is_looked_up_once sample_module_vars 0xC0E8
           "HTML Format"%string st); reflexivity.
Defined.

Lemma unknown_format_is_asked_again_witness :
  let st := mkNameState None [(0xC0E8, "HTML Format"%string)] [] in
  exists st1,
    _format_name sample_module_vars 0 st = ("unknown"%string, st1) /\
    cache sample_module_vars st1 = cache sample_module_vars st /\
    name_calls st1 = [0] /\
    name_calls (snd (_format_name sample_module_vars 0 st1)) = [0; 0] /\
    forall n,
      fst (_format_name sample_module_vars 0
             (mkNameState (formats st1) ((0, n) :: registered st1)
                          (name_calls st1)))
      = n.
Proof.
  intros st.
  apply (unknown_format_is_asked_again sample_module_vars 0 st); reflexivity.
Defined.

